(** * WH5 store inventory: the central state store

    A shallow embedding of the state store of the WH5 inventory application:
    the data model of [src/types/inventory.ts], the reducer
    [inventoryReducer] and the save effect of [InventoryProvider]
    (the InventoryContext part of [src/pages/Home.tsx]), and the caller-side
    guard [handleDelete] of [src/components/Categories/Categories.tsx].

    JavaScript values are modelled as follows.
    - [string]  : Rocq [string]; [===] on strings is [String.eqb].
    - [number]  : an IEEE 754 double, Rocq's primitive [float].
    - [Date]    : its time value (milliseconds since the epoch, or NaN), with
                  the local-time arithmetic of ECMA-262 (section 21.4.1).
    - arrays    : lists, in array order.
    - [T | null], [field?: T] : [option T].
    - the clock ([new Date()], [Date.now()]) : an explicit reading [now]. *)

From Stdlib Require Import ZArith List String Bool Lia.
From Stdlib Require Import Floats.PrimFloat DecimalString.
Import ListNotations.

Local Open Scope string_scope.
Local Open Scope list_scope.
Local Open Scope Z_scope.

Definition number : Set := float.

(** ** JavaScript dates *)

Module JSDate.

(** A Date object holds a time value: an integral number of milliseconds
    since 1970-01-01T00:00:00Z, or NaN (an invalid date). *)
Inductive t : Set :=
| TimeValue (tv : Z)
| Invalid.

(** The host's time zone, as ECMA-262 sees it: [LocalTZA(t, isUTC)].
    [offsetAtUTC t] is the local offset (ms) in effect at the instant [t];
    [offsetAtLocal l] is the offset used to read the local wall-clock
    time [l] back as an instant. *)
Record TimeZone : Set := {
  offsetAtUTC : Z -> Z;
  offsetAtLocal : Z -> Z
}.

Definition HoursPerDay : Z := 24.
Definition MinutesPerHour : Z := 60.
Definition SecondsPerMinute : Z := 60.
Definition msPerSecond : Z := 1000.
Definition msPerMinute : Z := 60000.
Definition msPerHour : Z := 3600000.
Definition msPerDay : Z := 86400000.

(** [Z.div] and [Z.modulo] are floor division and its remainder, as in
    the standard's [floor(t / d)] and [t modulo d]. *)
Definition Day (t : Z) : Z := t / msPerDay.
Definition HourFromTime (t : Z) : Z := (t / msPerHour) mod HoursPerDay.
Definition MinFromTime (t : Z) : Z := (t / msPerMinute) mod MinutesPerHour.
Definition SecFromTime (t : Z) : Z := (t / msPerSecond) mod SecondsPerMinute.
Definition msFromTime (t : Z) : Z := t mod msPerSecond.

Definition MakeTime (hour min sec ms : Z) : Z :=
  hour * msPerHour + min * msPerMinute + sec * msPerSecond + ms.
Definition MakeDate (day time : Z) : Z := day * msPerDay + time.

Definition TimeClip (time : Z) : t :=
  if Z.abs time >? 8640000000000000 then Invalid else TimeValue time.

Definition LocalTime (tz : TimeZone) (t : Z) : Z := t + offsetAtUTC tz t.
Definition UTC (tz : TimeZone) (t : Z) : Z := t - offsetAtLocal tz t.

(** [new Date()]: the current clock reading. *)
Definition newDate (now : Z) : t := TimeValue now.

(** [Date.prototype.getHours]: the hour of the local time, NaN ([None])
    on an invalid date. *)
Definition getHours (tz : TimeZone) (d : t) : option Z :=
  match d with
  | TimeValue tv => Some (HourFromTime (LocalTime tz tv))
  | Invalid => None
  end.

(** [Date.prototype.setHours(hour)]: replaces the hour field of the local
    time, keeps its day, minutes, seconds and milliseconds, and converts
    the result back to an instant. Returns the mutated date. *)
Definition setHours (tz : TimeZone) (d : t) (hour : option Z) : t :=
  match d, hour with
  | TimeValue tv, Some h =>
      let l := LocalTime tz tv in
      TimeClip (UTC tz (MakeDate (Day l)
                          (MakeTime h (MinFromTime l) (SecFromTime l) (msFromTime l))))
  | _, _ => Invalid
  end.

(** [n + 8] on a number that may be NaN. *)
Definition plus (n : option Z) (k : Z) : option Z := option_map (fun h => h + k) n.

(** A zone with one fixed offset (UTC when the offset is 0). *)
Definition fixedZone (offset : Z) : TimeZone :=
  {| offsetAtUTC := fun _ => offset; offsetAtLocal := fun _ => offset |}.

(** A zone that moves its clocks back by one hour at the instant
    [transition]: the offset is [before] up to it and [before - 1h] from
    it on. A local time that occurs twice is read with the offset before
    the transition, as the standard requires. *)
Definition fallBackZone (before transition : Z) : TimeZone :=
  {| offsetAtUTC := fun t => if t <? transition then before else before - msPerHour;
     offsetAtLocal := fun l => if l <? transition + before then before
                               else before - msPerHour |}.

(** America/New_York around the end of daylight saving time in 2024:
    UTC-4 until 2024-11-03T06:00:00Z, UTC-5 afterwards. *)
Definition newYorkAutumn2024 : TimeZone :=
  fallBackZone (-4 * msPerHour) 1730613600000.

(** A zone that moves its clocks forward by one hour at the instant
    [transition]. A local time that the jump skips is read with the offset
    before the transition. *)
Definition springForwardZone (before transition : Z) : TimeZone :=
  {| offsetAtUTC := fun t => if t <? transition then before else before + msPerHour;
     offsetAtLocal := fun l => if l <? transition + before + msPerHour then before
                               else before + msPerHour |}.

(** America/New_York around the start of daylight saving time in 2024:
    UTC-5 until 2024-03-10T07:00:00Z, UTC-4 afterwards. *)
Definition newYorkSpring2024 : TimeZone :=
  springForwardZone (-5 * msPerHour) 1710054000000.

End JSDate.

(** ** Data model ([src/types/inventory.ts]) *)

Module InventoryItem.
Record t : Set := {
  id : string;
  name : string;
  description : string;
  quantity : number;
  unit : string;
  categoryId : string;
  waybillNumber : string;
  tags : list string;
  createdAt : JSDate.t;
  updatedAt : JSDate.t;
  price : option number;
  minStockLevel : option number
}.
End InventoryItem.

Module Category.
Record t : Set := {
  id : string;
  name : string;
  description : string;
  color : string;
  createdAt : JSDate.t
}.
End Category.

Module ActivityLog.
Inductive Kind : Set := add | update | delete | scan | search.

(** [details?: Record<string, any>] is kept as key/value pairs whose
    values are JSON text. *)
Record t : Set := {
  id : string;
  type : Kind;
  description : string;
  itemId : option string;
  timestamp : JSDate.t;
  userId : option string;
  details : option (list (string * string))
}.
End ActivityLog.

Module User.
Inductive Role : Set := admin | team | guest.

Record t : Set := {
  id : string;
  email : string;
  name : string;
  role : Role;
  createdAt : JSDate.t;
  lastLogin : option JSDate.t
}.
End User.

Module Settings.
Inductive Theme : Set := light | dark.
Inductive ColorScheme : Set := blue | green | purple | orange.
Inductive Density : Set := compact | normal | spacious.

Record t : Set := {
  theme : Theme;
  colorScheme : ColorScheme;
  density : Density;
  adminPasscode : string;
  geminiApiKey : string;
  githubLink : string;
  companyDomain : string;
  autoLogout : bool;
  rememberSession : bool;
  lowStockAlerts : bool;
  activityNotifications : bool
}.
End Settings.

(** [Partial<Settings>]: every key may be absent. *)
Module PartialSettings.
Record t : Set := {
  theme : option Settings.Theme;
  colorScheme : option Settings.ColorScheme;
  density : option Settings.Density;
  adminPasscode : option string;
  geminiApiKey : option string;
  githubLink : option string;
  companyDomain : option string;
  autoLogout : option bool;
  rememberSession : option bool;
  lowStockAlerts : option bool;
  activityNotifications : option bool
}.
End PartialSettings.

Record AuthState : Set := {
  isAuthenticated : bool;
  user : option User.t;
  sessionExpiry : option JSDate.t
}.

Record InventoryState : Set := {
  items : list InventoryItem.t;
  categories : list Category.t;
  activityLog : list ActivityLog.t;
  settings : Settings.t;
  auth : AuthState
}.

(** The union [InventoryAction] has fourteen members. The reducer is
    called by React with whatever object was dispatched, so an object whose
    [type] is none of the fourteen case labels is a possible argument at
    run time; [OTHER_ACTION] stands for such an object. *)
Inductive InventoryAction : Set :=
| ADD_ITEM (payload : InventoryItem.t)
| UPDATE_ITEM (payload : InventoryItem.t)
| DELETE_ITEM (payload : string)
| SET_ITEMS (payload : list InventoryItem.t)
| ADD_CATEGORY (payload : Category.t)
| UPDATE_CATEGORY (payload : Category.t)
| DELETE_CATEGORY (payload : string)
| SET_CATEGORIES (payload : list Category.t)
| ADD_ACTIVITY (payload : ActivityLog.t)
| SET_ACTIVITY_LOG (payload : list ActivityLog.t)
| UPDATE_SETTINGS (payload : PartialSettings.t)
| LOGIN (payload : User.t)
| LOGOUT
| REFRESH_SESSION
| OTHER_ACTION (type : string).

(** [action.type], the string the reducer switches on. *)
Definition actionType (action : InventoryAction) : string :=
  match action with
  | ADD_ITEM _ => "ADD_ITEM"
  | UPDATE_ITEM _ => "UPDATE_ITEM"
  | DELETE_ITEM _ => "DELETE_ITEM"
  | SET_ITEMS _ => "SET_ITEMS"
  | ADD_CATEGORY _ => "ADD_CATEGORY"
  | UPDATE_CATEGORY _ => "UPDATE_CATEGORY"
  | DELETE_CATEGORY _ => "DELETE_CATEGORY"
  | SET_CATEGORIES _ => "SET_CATEGORIES"
  | ADD_ACTIVITY _ => "ADD_ACTIVITY"
  | SET_ACTIVITY_LOG _ => "SET_ACTIVITY_LOG"
  | UPDATE_SETTINGS _ => "UPDATE_SETTINGS"
  | LOGIN _ => "LOGIN"
  | LOGOUT => "LOGOUT"
  | REFRESH_SESSION => "REFRESH_SESSION"
  | OTHER_ACTION type => type
  end.

(** The case labels of the reducer's [switch]. *)
Definition actionKinds : list string :=
  [ "ADD_ITEM"; "UPDATE_ITEM"; "DELETE_ITEM"; "SET_ITEMS";
    "ADD_CATEGORY"; "UPDATE_CATEGORY"; "DELETE_CATEGORY"; "SET_CATEGORIES";
    "ADD_ACTIVITY"; "SET_ACTIVITY_LOG"; "UPDATE_SETTINGS";
    "LOGIN"; "LOGOUT"; "REFRESH_SESSION" ].

(** ** The store ([InventoryContext], in [src/pages/Home.tsx]) *)

(** [initialState]; the module is evaluated once, at [loadTime]. *)
Definition initialState (loadTime : Z) : InventoryState :=
  {| items := [];
     categories :=
       [ {| Category.id := "default";
            Category.name := "General";
            Category.description := "Default category for uncategorized items";
            Category.color := "#3B82F6";
            Category.createdAt := JSDate.newDate loadTime |} ];
     activityLog := [];
     settings :=
       {| Settings.theme := Settings.light;
          Settings.colorScheme := Settings.blue;
          Settings.density := Settings.normal;
          Settings.adminPasscode := "admin123";
          Settings.geminiApiKey := "";
          Settings.githubLink := "https://github.com/wh5-construction/inventory-pro";
          Settings.companyDomain := "wh5construction.com";
          Settings.autoLogout := false;
          Settings.rememberSession := true;
          Settings.lowStockAlerts := true;
          Settings.activityNotifications := false |};
     auth := {| isAuthenticated := false; user := None; sessionExpiry := None |} |}.

(** Object spreads [{ ...state, field: v }], one per overwritten field. *)
Definition withItems (state : InventoryState) (v : list InventoryItem.t) : InventoryState :=
  {| items := v; categories := categories state; activityLog := activityLog state;
     settings := settings state; auth := auth state |}.

Definition withCategories (state : InventoryState) (v : list Category.t) : InventoryState :=
  {| items := items state; categories := v; activityLog := activityLog state;
     settings := settings state; auth := auth state |}.

Definition withActivityLog (state : InventoryState) (v : list ActivityLog.t) : InventoryState :=
  {| items := items state; categories := categories state; activityLog := v;
     settings := settings state; auth := auth state |}.

Definition withSettings (state : InventoryState) (v : Settings.t) : InventoryState :=
  {| items := items state; categories := categories state; activityLog := activityLog state;
     settings := v; auth := auth state |}.

Definition withAuth (state : InventoryState) (v : AuthState) : InventoryState :=
  {| items := items state; categories := categories state; activityLog := activityLog state;
     settings := settings state; auth := v |}.

(** [{ ...auth, sessionExpiry: v }]. *)
Definition withSessionExpiry (a : AuthState) (v : option JSDate.t) : AuthState :=
  {| isAuthenticated := isAuthenticated a; user := user a; sessionExpiry := v |}.

(** A key of the second spread wins when it is present. *)
Definition orElse {A : Type} (override : option A) (base : A) : A :=
  match override with
  | Some v => v
  | None => base
  end.

(** [{ ...state.settings, ...action.payload }]. *)
Definition mergeSettings (base : Settings.t) (p : PartialSettings.t) : Settings.t :=
  {| Settings.theme := orElse (PartialSettings.theme p) (Settings.theme base);
     Settings.colorScheme := orElse (PartialSettings.colorScheme p) (Settings.colorScheme base);
     Settings.density := orElse (PartialSettings.density p) (Settings.density base);
     Settings.adminPasscode := orElse (PartialSettings.adminPasscode p) (Settings.adminPasscode base);
     Settings.geminiApiKey := orElse (PartialSettings.geminiApiKey p) (Settings.geminiApiKey base);
     Settings.githubLink := orElse (PartialSettings.githubLink p) (Settings.githubLink base);
     Settings.companyDomain := orElse (PartialSettings.companyDomain p) (Settings.companyDomain base);
     Settings.autoLogout := orElse (PartialSettings.autoLogout p) (Settings.autoLogout base);
     Settings.rememberSession := orElse (PartialSettings.rememberSession p) (Settings.rememberSession base);
     Settings.lowStockAlerts := orElse (PartialSettings.lowStockAlerts p) (Settings.lowStockAlerts base);
     Settings.activityNotifications :=
       orElse (PartialSettings.activityNotifications p) (Settings.activityNotifications base) |}.

(** The session length both [LOGIN] and [REFRESH_SESSION] compute:
    [const d = new Date(); d.setHours(d.getHours() + 8)]. *)
Definition eightHoursFrom (tz : JSDate.TimeZone) (now : Z) : JSDate.t :=
  let d := JSDate.newDate now in
  JSDate.setHours tz d (JSDate.plus (JSDate.getHours tz d) 8).

(** [inventoryReducer(state, action)], run in time zone [tz] when the
    clock reads [now]. The returned state is the function's value; its one
    effect outside the state is [darkMarker] below. *)
Definition inventoryReducer (tz : JSDate.TimeZone) (now : Z)
    (state : InventoryState) (action : InventoryAction) : InventoryState :=
  match action with
  | ADD_ITEM payload =>
      withItems state (items state ++ [payload])
  | UPDATE_ITEM payload =>
      withItems state
        (map (fun item =>
                if String.eqb (InventoryItem.id item) (InventoryItem.id payload)
                then payload else item)
             (items state))
  | DELETE_ITEM payload =>
      withItems state
        (filter (fun item => negb (String.eqb (InventoryItem.id item) payload))
                (items state))
  | SET_ITEMS payload =>
      withItems state payload
  | ADD_CATEGORY payload =>
      withCategories state (categories state ++ [payload])
  | UPDATE_CATEGORY payload =>
      withCategories state
        (map (fun category =>
                if String.eqb (Category.id category) (Category.id payload)
                then payload else category)
             (categories state))
  | DELETE_CATEGORY payload =>
      withCategories state
        (filter (fun category => negb (String.eqb (Category.id category) payload))
                (categories state))
  | SET_CATEGORIES payload =>
      withCategories state payload
  | ADD_ACTIVITY payload =>
      withActivityLog state (payload :: activityLog state)
  | SET_ACTIVITY_LOG payload =>
      withActivityLog state payload
  | UPDATE_SETTINGS payload =>
      let newSettings := mergeSettings (settings state) payload in
      withSettings state newSettings
  | LOGIN payload =>
      let sessionExpiry := eightHoursFrom tz now in
      withAuth state
        {| isAuthenticated := true; user := Some payload; sessionExpiry := Some sessionExpiry |}
  | LOGOUT =>
      withAuth state {| isAuthenticated := false; user := None; sessionExpiry := None |}
  | REFRESH_SESSION =>
      if isAuthenticated (auth state) then
        let newExpiry := eightHoursFrom tz now in
        withAuth state (withSessionExpiry (auth state) (Some newExpiry))
      else state
  | OTHER_ACTION _ =>
      state
  end.

(** The reducer's effect on the page: [UPDATE_SETTINGS] with a [theme] key
    adds or removes the class [dark] on the document element. [marked] says
    whether the class is set before the call, the result whether it is set
    after it. *)
Definition darkMarker (action : InventoryAction) (marked : bool) : bool :=
  match action with
  | UPDATE_SETTINGS payload =>
      match PartialSettings.theme payload with
      | Some Settings.dark => true
      | Some Settings.light => false
      | None => marked
      end
  | _ => marked
  end.

(** States of the store: [useReducer(inventoryReducer, initialState)]
    starts from [initialState] and moves by one reducer call per dispatched
    action. [allowed state action] restricts what callers dispatch in
    [state]; with no restriction every action may be dispatched. *)
Inductive reachableUnder (tz : JSDate.TimeZone) (loadTime : Z)
    (allowed : InventoryState -> InventoryAction -> Prop) : InventoryState -> Prop :=
| reach_initial : reachableUnder tz loadTime allowed (initialState loadTime)
| reach_dispatch (state : InventoryState) (now : Z) (action : InventoryAction) :
    reachableUnder tz loadTime allowed state ->
    allowed state action ->
    reachableUnder tz loadTime allowed (inventoryReducer tz now state action).

Definition anyAction (_ : InventoryState) (_ : InventoryAction) : Prop := True.

Definition reachable (tz : JSDate.TimeZone) (loadTime : Z) : InventoryState -> Prop :=
  reachableUnder tz loadTime anyAction.

(** A batch of dispatches, reduced in order. *)
Definition dispatchAll (tz : JSDate.TimeZone) (now : Z)
    (state : InventoryState) (actions : list InventoryAction) : InventoryState :=
  fold_left (inventoryReducer tz now) actions state.

(** ** Persistence (the save effect of [InventoryProvider]) *)

Definition loggedOut : AuthState :=
  {| isAuthenticated := false; user := None; sessionExpiry := None |}.

(** The object literal [dataToSave]. *)
Definition dataToSave (state : InventoryState) : InventoryState :=
  {| items := items state;
     categories := categories state;
     activityLog := activityLog state;
     settings := settings state;
     auth := if Settings.rememberSession (settings state) then auth state else loggedOut |}.

(** [localStorage]: string keys to string values. *)
Definition Storage : Type := string -> option string.

Definition getItem (key : string) (storage : Storage) : option string := storage key.

Definition setItem (key value : string) (storage : Storage) : Storage :=
  fun k => if String.eqb k key then Some value else storage k.

Definition storageKey : string := "wh5-inventory-data".

Section Save.
(** [JSON.stringify], applied to the blob. *)
Variable stringify : InventoryState -> string.

Definition save (state : InventoryState) (localStorage : Storage) : Storage :=
  setItem storageKey (stringify (dataToSave state)) localStorage.
End Save.

(** ** The caller that deletes categories ([Categories.tsx]) *)

Definition doubleQuote : string := String (Ascii.ascii_of_nat 34) "".

(** [Date.now().toString()]. *)
Definition timeToString (now : Z) : string := NilZero.string_of_int (Z.to_int now).

(** [{ ...item, categoryId: 'default' }]. *)
Definition moveToDefault (item : InventoryItem.t) : InventoryItem.t :=
  {| InventoryItem.id := InventoryItem.id item;
     InventoryItem.name := InventoryItem.name item;
     InventoryItem.description := InventoryItem.description item;
     InventoryItem.quantity := InventoryItem.quantity item;
     InventoryItem.unit := InventoryItem.unit item;
     InventoryItem.categoryId := "default";
     InventoryItem.waybillNumber := InventoryItem.waybillNumber item;
     InventoryItem.tags := InventoryItem.tags item;
     InventoryItem.createdAt := InventoryItem.createdAt item;
     InventoryItem.updatedAt := InventoryItem.updatedAt item;
     InventoryItem.price := InventoryItem.price item;
     InventoryItem.minStockLevel := InventoryItem.minStockLevel item |}.

(** [handleDelete(category)]: the actions it dispatches, in order.
    [state] is the state the component rendered with, [confirmed] the
    user's answer to [window.confirm] (asked only when the category holds
    items), [idClock] and [stampClock] the two clock readings. Deleting
    the default category only raises an alert. *)
Definition handleDelete (idClock stampClock : Z) (confirmed : bool)
    (state : InventoryState) (category : Category.t) : list InventoryAction :=
  if String.eqb (Category.id category) "default" then []
  else
    let itemsInCategory :=
      filter (fun item => String.eqb (InventoryItem.categoryId item) (Category.id category))
             (items state) in
    if (0 <? Z.of_nat (List.length itemsInCategory)) && negb confirmed then []
    else
      (if 0 <? Z.of_nat (List.length itemsInCategory)
       then map (fun item => UPDATE_ITEM (moveToDefault item)) itemsInCategory
       else [])
      ++ [ DELETE_CATEGORY (Category.id category);
           ADD_ACTIVITY
             {| ActivityLog.id := timeToString idClock;
                ActivityLog.type := ActivityLog.delete;
                ActivityLog.description :=
                  String.append "Deleted category "
                    (String.append doubleQuote
                       (String.append (Category.name category) doubleQuote));
                ActivityLog.itemId := None;
                ActivityLog.timestamp := JSDate.newDate stampClock;
                ActivityLog.userId := option_map User.id (user (auth state));
                ActivityLog.details := None |} ].

(** ** Predicates of the claims *)

Definition itemIds (l : list InventoryItem.t) : list string := map InventoryItem.id l.

(** Pairwise-distinct ids. *)
Definition uniqueItemIds (state : InventoryState) : Prop := NoDup (itemIds (items state)).

(** Some category has id [default]. *)
Definition hasDefaultCategory (l : list Category.t) : Prop :=
  exists c, In c l /\ Category.id c = "default".

Definition hasCategoryb (id : string) (l : list Category.t) : bool :=
  existsb (fun c => String.eqb (Category.id c) id) l.

(** What the reducer leaves to its callers for items: a fresh id on
    [ADD_ITEM], distinct ids in the payload of [SET_ITEMS]. *)
Definition itemCallerContract (state : InventoryState) (action : InventoryAction) : Prop :=
  match action with
  | ADD_ITEM payload => ~ In (InventoryItem.id payload) (itemIds (items state))
  | SET_ITEMS payload => NoDup (itemIds payload)
  | _ => True
  end.

(** What the reducer leaves to its callers for the default category: no
    [DELETE_CATEGORY] of it, and a [SET_CATEGORIES] payload that holds it. *)
Definition categoryCallerContract (_ : InventoryState) (action : InventoryAction) : Prop :=
  match action with
  | DELETE_CATEGORY payload => payload <> "default"
  | SET_CATEGORIES payload => hasDefaultCategory payload
  | _ => True
  end.

(** ** Lists: replacing and removing by id

    The two array idioms of the reducer, over any record with a string key. *)

Section ByIdDefinitions.
Context {A : Type} (key : A -> string).

(** [l.map(x => key(x) === key(y) ? y : x)] *)
Definition replaceById (y : A) (l : list A) : list A :=
  map (fun x => if String.eqb (key x) (key y) then y else x) l.

(** [l.filter(x => key(x) !== k)] *)
Definition removeById (k : string) (l : list A) : list A :=
  filter (fun x => negb (String.eqb (key x) k)) l.
End ByIdDefinitions.

(** Actions whose case writes the [items] field. *)
Definition touchesItems (action : InventoryAction) : bool :=
  match action with
  | ADD_ITEM _ | UPDATE_ITEM _ | DELETE_ITEM _ | SET_ITEMS _ => true
  | _ => false
  end.

(** Actions whose case writes the [categories] field. *)
Definition touchesCategories (action : InventoryAction) : bool :=
  match action with
  | ADD_CATEGORY _ | UPDATE_CATEGORY _ | DELETE_CATEGORY _ | SET_CATEGORIES _ => true
  | _ => false
  end.

(** ** Sample values *)

Definition exampleItem (id categoryId : string) : InventoryItem.t :=
  {| InventoryItem.id := id;
     InventoryItem.name := "Hex bolt M8";
     InventoryItem.description := "Zinc plated";
     InventoryItem.quantity := 5%float;
     InventoryItem.unit := "pcs";
     InventoryItem.categoryId := categoryId;
     InventoryItem.waybillNumber := "WB-1001";
     InventoryItem.tags := ["steel"];
     InventoryItem.createdAt := JSDate.newDate 1000;
     InventoryItem.updatedAt := JSDate.newDate 1000;
     InventoryItem.price := None;
     InventoryItem.minStockLevel := None |}.

Definition toolsCategory : Category.t :=
  {| Category.id := "tools";
     Category.name := "Tools";
     Category.description := "Hand tools";
     Category.color := "#10B981";
     Category.createdAt := JSDate.newDate 1000 |}.

Definition exampleUser : User.t :=
  {| User.id := "guest";
     User.email := "guest@wh5construction.com";
     User.name := "Guest User";
     User.role := User.guest;
     User.createdAt := JSDate.newDate 1000;
     User.lastLogin := None |}.

Definition exampleRecord (id : string) : ActivityLog.t :=
  {| ActivityLog.id := id;
     ActivityLog.type := ActivityLog.scan;
     ActivityLog.description := "Guest user logged in";
     ActivityLog.itemId := None;
     ActivityLog.timestamp := JSDate.newDate 1000;
     ActivityLog.userId := Some "guest";
     ActivityLog.details := None |}.

Definition utc : JSDate.TimeZone := JSDate.fixedZone 0.

(** A serializer that keeps only the authentication flag of a blob. *)
Definition authFlagText (blob : InventoryState) : string :=
  if isAuthenticated (auth blob) then "authenticated" else "logged-out".

(** 2024-11-03T02:00:00Z, which is 22:00 on 2 November in New York, four
    hours before the clocks there go back. *)
Definition eveOfClockChange : Z := 1730599200000.

(** 2024-03-10T04:00:00Z, which is 23:00 on 9 March in New York, three
    hours before the clocks there go forward. *)
Definition eveOfSummerTime : Z := 1710043200000.

(** [{ rememberSession: false }], as the settings page dispatches it. *)
Definition forgetSession : PartialSettings.t :=
  {| PartialSettings.theme := None;
     PartialSettings.colorScheme := None;
     PartialSettings.density := None;
     PartialSettings.adminPasscode := None;
     PartialSettings.geminiApiKey := None;
     PartialSettings.githubLink := None;
     PartialSettings.companyDomain := None;
     PartialSettings.autoLogout := None;
     PartialSettings.rememberSession := Some false;
     PartialSettings.lowStockAlerts := None;
     PartialSettings.activityNotifications := None |}.

(** A guest signed in at 21:00 New York time on 2 November 2024. *)
Definition signedIn : InventoryState :=
  inventoryReducer JSDate.newYorkAutumn2024 (eveOfClockChange - JSDate.msPerHour)
    (initialState 0) (LOGIN exampleUser).

(** The same session after the user switched [rememberSession] off. *)
Definition signedInForgetful : InventoryState :=
  inventoryReducer JSDate.newYorkAutumn2024 eveOfClockChange signedIn
    (UPDATE_SETTINGS forgetSession).

(** ** The rest of the store and its callers

    Definitions for the parts of the application around the reducer: the
    load effect and the session monitor of [InventoryProvider], the view
    switch of [Home], the sidebar menu, the category form, the login and
    passcode handlers, and the read-only helpers of the report, search and
    dashboard views. A handler runs to completion within a millisecond or
    so; all the clock readings of one run are taken as the one instant
    [clock]. *)

(** [a > b] on two Date objects: their time values are compared, and the
    comparison is false when either is NaN. *)
Definition dateAfter (a b : JSDate.t) : bool :=
  match a, b with
  | JSDate.TimeValue x, JSDate.TimeValue y => y <? x
  | _, _ => false
  end.


(** *** The load effect ([Home.tsx], [InventoryProvider]) *)

(** [parsedData.activityLog] when it is truthy: an array or something
    else. *)
Inductive ParsedActivityLog : Set :=
| LogArray (records : list ActivityLog.t)
| LogNotArray.

(** [parsedData.auth] when it is truthy. [savedSessionExpiry] is the value
    of [new Date(parsedData.auth.sessionExpiry)]; [savedUser] is the user
    object a saved session carries. *)
Record ParsedAuth : Set := {
  savedIsAuthenticated : bool;
  savedUser : User.t;
  savedSessionExpiry : JSDate.t
}.

(** The object [JSON.parse] returns. A field is [None] when the key is
    missing or holds a falsy value; an empty array is truthy. *)
Record ParsedData : Set := {
  savedItems : option (list InventoryItem.t);
  savedCategories : option (list Category.t);
  savedSettings : option PartialSettings.t;
  savedActivityLog : option ParsedActivityLog;
  savedAuth : option ParsedAuth
}.

(** The dispatches of the [try] block, in order. *)
Definition loadActions (clock : Z) (parsedData : ParsedData) : list InventoryAction :=
  (match savedItems parsedData with
   | Some payload => [SET_ITEMS payload]
   | None => []
   end)
  ++ (match savedCategories parsedData with
      | Some payload => [SET_CATEGORIES payload]
      | None => []
      end)
  ++ (match savedSettings parsedData with
      | Some payload => [UPDATE_SETTINGS payload]
      | None => []
      end)
  ++ (match savedActivityLog parsedData with
      | Some (LogArray records) => [SET_ACTIVITY_LOG records]
      | Some LogNotArray => [SET_ACTIVITY_LOG []]
      | None => []
      end)
  ++ (match savedAuth parsedData with
      | Some a =>
          if savedIsAuthenticated a then
            if dateAfter (savedSessionExpiry a) (JSDate.newDate clock)
            then [LOGIN (savedUser a)] else []
          else []
      | None => []
      end).

Section Load.
(** [JSON.parse]; [None] when it throws. *)
Variable parse : string -> option ParsedData.

(** The mount effect: nothing is dispatched when the slot is empty, holds
    the empty string, or holds text that does not parse. *)
Definition loadEffect (clock : Z) (localStorage : Storage) : list InventoryAction :=
  match getItem storageKey localStorage with
  | Some savedData =>
      if String.eqb savedData "" then []
      else match parse savedData with
           | Some parsedData => loadActions clock parsedData
           | None => []
           end
  | None => []
  end.
End Load.

(** *** The session monitor ([Home.tsx], auto-logout effect) *)

(** The effect installs its interval only when this holds. *)
Definition sessionMonitorArmed (state : InventoryState) : bool :=
  isAuthenticated (auth state)
  && match sessionExpiry (auth state) with Some _ => true | None => false end.

(** [checkSession], run by the interval when the clock reads [clock]. *)
Definition checkSession (clock : Z) (state : InventoryState) : list InventoryAction :=
  match sessionExpiry (auth state) with
  | Some expiry => if dateAfter (JSDate.newDate clock) expiry then [LOGOUT] else []
  | None => []
  end.

(** One tick of the monitor. *)
Definition sessionMonitorTick (clock : Z) (state : InventoryState) : list InventoryAction :=
  if sessionMonitorArmed state then checkSession clock state else [].

(** *** The view switch ([Home.tsx], [Home]) *)

Inductive Screen : Set :=
| DashboardScreen
| SearchFilterScreen
| AccessDeniedScreen
| AddItemScreen
| CategoriesScreen
| ActivityLogScreen
| QRScannerScreen
| AIAssistantScreen
| SettingsScreen.

(** [state.auth.user?.role] *)
Definition userRole (state : InventoryState) : option User.Role :=
  option_map User.role (user (auth state)).

Definition isGuest (role : option User.Role) : bool :=
  match role with
  | Some User.guest => true
  | _ => false
  end.

(** [array.includes(x)] on strings. *)
Definition includes (l : list string) (x : string) : bool := existsb (String.eqb x) l.

(** [handleViewChange(view)]: the value [currentView] is set to. *)
Definition handleViewChange (role : option User.Role) (view : string) : string :=
  if isGuest role then
    if includes ["dashboard"; "search"] view then view else "access-denied"
  else view.

(** [renderCurrentView()] *)
Definition renderCurrentView (role : option User.Role) (currentView : string) : Screen :=
  if String.eqb currentView "dashboard" then DashboardScreen
  else if String.eqb currentView "search" then SearchFilterScreen
  else if String.eqb currentView "access-denied" then AccessDeniedScreen
  else if String.eqb currentView "add-item" then
    if isGuest role then AccessDeniedScreen else AddItemScreen
  else if String.eqb currentView "categories" then
    if isGuest role then AccessDeniedScreen else CategoriesScreen
  else if String.eqb currentView "activity-log" then
    if isGuest role then AccessDeniedScreen else ActivityLogScreen
  else if String.eqb currentView "qr-scanner" then
    if isGuest role then AccessDeniedScreen else QRScannerScreen
  else if String.eqb currentView "ai-assistant" then
    if isGuest role then AccessDeniedScreen else AIAssistantScreen
  else if String.eqb currentView "settings" then
    if isGuest role then AccessDeniedScreen else SettingsScreen
  else DashboardScreen.

(** *** The sidebar ([Sidebar]) *)

Record MenuItem : Set := {
  menuId : string;
  menuLabel : string;
  menuRoles : list User.Role
}.

Definition allMenuItems : list MenuItem :=
  [ {| menuId := "dashboard"; menuLabel := "Dashboard";
       menuRoles := [User.guest; User.team; User.admin] |};
    {| menuId := "search"; menuLabel := "Search & Filter";
       menuRoles := [User.guest; User.team; User.admin] |};
    {| menuId := "add-item"; menuLabel := "Add Item"; menuRoles := [User.team; User.admin] |};
    {| menuId := "categories"; menuLabel := "Categories"; menuRoles := [User.team; User.admin] |};
    {| menuId := "activity-log"; menuLabel := "Activity Log";
       menuRoles := [User.team; User.admin] |};
    {| menuId := "qr-scanner"; menuLabel := "QR Scanner"; menuRoles := [User.team; User.admin] |};
    {| menuId := "ai-assistant"; menuLabel := "AI Assistant";
       menuRoles := [User.team; User.admin] |};
    {| menuId := "settings"; menuLabel := "Settings"; menuRoles := [User.team; User.admin] |} ].

Definition roleEqb (a b : User.Role) : bool :=
  match a, b with
  | User.admin, User.admin | User.team, User.team | User.guest, User.guest => true
  | _, _ => false
  end.

(** [allMenuItems.filter(item => item.roles.includes(userRole || 'guest'))] *)
Definition menuItems (role : option User.Role) : list MenuItem :=
  filter (fun item => existsb (roleEqb (orElse role User.guest)) (menuRoles item)) allMenuItems.

Definition noSettings : PartialSettings.t :=
  {| PartialSettings.theme := None;
     PartialSettings.colorScheme := None;
     PartialSettings.density := None;
     PartialSettings.adminPasscode := None;
     PartialSettings.geminiApiKey := None;
     PartialSettings.githubLink := None;
     PartialSettings.companyDomain := None;
     PartialSettings.autoLogout := None;
     PartialSettings.rememberSession := None;
     PartialSettings.lowStockAlerts := None;
     PartialSettings.activityNotifications := None |}.

(** [{ theme: t }] *)
Definition themeOnly (t : Settings.Theme) : PartialSettings.t :=
  {| PartialSettings.theme := Some t;
     PartialSettings.colorScheme := None;
     PartialSettings.density := None;
     PartialSettings.adminPasscode := None;
     PartialSettings.geminiApiKey := None;
     PartialSettings.githubLink := None;
     PartialSettings.companyDomain := None;
     PartialSettings.autoLogout := None;
     PartialSettings.rememberSession := None;
     PartialSettings.lowStockAlerts := None;
     PartialSettings.activityNotifications := None |}.

(** [toggleTheme]: the action it dispatches. *)
Definition toggleTheme (state : InventoryState) : InventoryAction :=
  UPDATE_SETTINGS
    (themeOnly (match Settings.theme (settings state) with
                | Settings.dark => Settings.light
                | Settings.light => Settings.dark
                end)).

(** *** Login and passcode handlers ([Login.tsx], [Settings.tsx]) *)

(** An activity record as the handlers build it:
    [{ id: Date.now().toString(), type, description, timestamp: new Date(), userId }]. *)
Definition handlerRecord (clock : Z) (kind : ActivityLog.Kind) (description : string)
    (userId : option string) : ActivityLog.t :=
  {| ActivityLog.id := timeToString clock;
     ActivityLog.type := kind;
     ActivityLog.description := description;
     ActivityLog.itemId := None;
     ActivityLog.timestamp := JSDate.newDate clock;
     ActivityLog.userId := userId;
     ActivityLog.details := None |}.

Definition guestUser (clock : Z) : User.t :=
  {| User.id := String.append "guest-" (timeToString clock);
     User.email := "guest@local";
     User.name := "Guest User";
     User.role := User.guest;
     User.createdAt := JSDate.newDate clock;
     User.lastLogin := Some (JSDate.newDate clock) |}.

(** [handleGuestLogin], the body of its timeout. *)
Definition handleGuestLogin (clock : Z) : list InventoryAction :=
  [ LOGIN (guestUser clock);
    ADD_ACTIVITY (handlerRecord clock ActivityLog.scan "Guest user logged in"
                    (Some (User.id (guestUser clock)))) ].





(** *** The category form ([Categories.tsx]) *)

Record CategoryForm : Set := {
  formName : string;
  formDescription : string;
  formColor : string
}.

(** The keys [validateForm] may set on [newErrors]. *)
Record FormErrors : Set := {
  nameError : option string;
  descriptionError : option string
}.

(** [cat.id !== editingCategory?.id]: with nothing being edited the right
    side is [undefined], which no id equals. *)
Definition isOtherThan (editingCategory : option Category.t) (cat : Category.t) : bool :=
  match editingCategory with
  | Some ec => negb (String.eqb (Category.id cat) (Category.id ec))
  | None => true
  end.

Section CategoryFormHandlers.
(** [String.prototype.trim] and [String.prototype.toLowerCase]. *)
Variable trim : string -> string.
Variable toLowerCase : string -> string.

Definition isDuplicateName (state : InventoryState) (editingCategory : option Category.t)
    (formData : CategoryForm) : bool :=
  existsb (fun cat =>
             String.eqb (toLowerCase (Category.name cat)) (toLowerCase (formName formData))
             && isOtherThan editingCategory cat)
          (categories state).

(** The object [newErrors] at the end of [validateForm]. *)
Definition validationErrors (state : InventoryState) (editingCategory : option Category.t)
    (formData : CategoryForm) : FormErrors :=
  let nameCheck :=
    if String.eqb (trim (formName formData)) "" then Some "Category name is required"
    else if Z.of_nat (String.length (formName formData)) <? 2
         then Some "Category name must be at least 2 characters"
         else None in
  let descriptionCheck :=
    if String.eqb (trim (formDescription formData)) "" then Some "Description is required"
    else None in
  {| nameError := if isDuplicateName state editingCategory formData
                  then Some "Category name already exists" else nameCheck;
     descriptionError := descriptionCheck |}.

(** [validateForm()]: [Object.keys(newErrors).length === 0]. *)
Definition validateForm (state : InventoryState) (editingCategory : option Category.t)
    (formData : CategoryForm) : bool :=
  match validationErrors state editingCategory formData with
  | {| nameError := None; descriptionError := None |} => true
  | _ => false
  end.

Definition quoted (s : string) : string :=
  String.append doubleQuote (String.append s doubleQuote).

(** [handleSubmit]: the actions it dispatches. *)
Definition handleSubmit (clock : Z) (state : InventoryState)
    (editingCategory : option Category.t) (formData : CategoryForm) : list InventoryAction :=
  if negb (validateForm state editingCategory formData) then []
  else
    match editingCategory with
    | Some ec =>
        let updatedCategory :=
          {| Category.id := Category.id ec;
             Category.name := formName formData;
             Category.description := formDescription formData;
             Category.color := formColor formData;
             Category.createdAt := Category.createdAt ec |} in
        [ UPDATE_CATEGORY updatedCategory;
          ADD_ACTIVITY
            (handlerRecord clock ActivityLog.update
               (String.append "Updated category " (quoted (formName formData)))
               (option_map User.id (user (auth state)))) ]
    | None =>
        let newCategory :=
          {| Category.id := timeToString clock;
             Category.name := formName formData;
             Category.description := formDescription formData;
             Category.color := formColor formData;
             Category.createdAt := JSDate.newDate clock |} in
        [ ADD_CATEGORY newCategory;
          ADD_ACTIVITY
            (handlerRecord clock ActivityLog.add
               (String.append "Added new category " (quoted (formName formData)))
               (option_map User.id (user (auth state)))) ]
    end.

(** Names that are pairwise different when case is ignored. *)
Definition uniqueCategoryNames (l : list Category.t) : Prop :=
  NoDup (map (fun c => toLowerCase (Category.name c)) l).
End CategoryFormHandlers.

(** [getCategoryItemCount(categoryId)] *)
Definition getCategoryItemCount (state : InventoryState) (categoryId : string) : nat :=
  List.length
    (filter (fun item => String.eqb (InventoryItem.categoryId item) categoryId) (items state)).

(** What deleting the category [categoryId] is meant to do to the items:
    every item in it goes to [default], the others stay. *)
Definition reassigned (categoryId : string) (l : list InventoryItem.t) : list InventoryItem.t :=
  map (fun item => if String.eqb (InventoryItem.categoryId item) categoryId
                   then moveToDefault item else item) l.

(** *** Read-only helpers of the views *)

(** [getCategoryName(categoryId)] ([SearchFilter.tsx]): the name of the
    first category with that id, [Unknown] when there is none or its name
    is empty. *)
Definition getCategoryName (state : InventoryState) (categoryId : string) : string :=
  match find (fun c => String.eqb (Category.id c) categoryId) (categories state) with
  | Some category =>
      if String.eqb (Category.name category) "" then "Unknown" else Category.name category
  | None => "Unknown"
  end.

(** [recentActivities] ([Dashboard.tsx]): [state.activityLog.slice(0, 5)]. *)
Definition recentActivities (state : InventoryState) : list ActivityLog.t :=
  firstn 5 (activityLog state).






(** *** More sample values *)

(** Lower case of an ASCII letter, other characters unchanged. *)
Fixpoint asciiLower (s : string) : string :=
  match s with
  | EmptyString => EmptyString
  | String c rest =>
      let n := Ascii.nat_of_ascii c in
      String (if (Nat.leb 65 n && Nat.leb n 90)%bool then Ascii.ascii_of_nat (n + 32) else c)
             (asciiLower rest)
  end.

Definition toolsForm : CategoryForm :=
  {| formName := "Tools"; formDescription := "Hand tools"; formColor := "#10B981" |}.

(** *** Predicates of the further properties *)


(** The top-level fields of the state. *)
Inductive Field : Set :=
| ItemsField
| CategoriesField
| ActivityLogField
| SettingsField
| AuthField.

(** The field an action's case assigns, if any. *)
Definition written (action : InventoryAction) : option Field :=
  match action with
  | ADD_ITEM _ | UPDATE_ITEM _ | DELETE_ITEM _ | SET_ITEMS _ => Some ItemsField
  | ADD_CATEGORY _ | UPDATE_CATEGORY _ | DELETE_CATEGORY _ | SET_CATEGORIES _ =>
      Some CategoriesField
  | ADD_ACTIVITY _ | SET_ACTIVITY_LOG _ => Some ActivityLogField
  | UPDATE_SETTINGS _ => Some SettingsField
  | LOGIN _ | LOGOUT | REFRESH_SESSION => Some AuthField
  | OTHER_ACTION _ => None
  end.

(** The state after a guest signed in through the login page. *)
Definition guestSession : InventoryState :=
  dispatchAll utc 1000 (initialState 0) (handleGuestLogin 1000).

Definition settingsMenuItem : MenuItem :=
  {| menuId := "settings"; menuLabel := "Settings"; menuRoles := [User.team; User.admin] |}.

(** A run of [UPDATE_ITEM] payloads applied to a list of items. *)
Definition applyUpdates (updates l : list InventoryItem.t) : list InventoryItem.t :=
  fold_left (fun acc u => replaceById InventoryItem.id u acc) updates l.

(** [reassigned], restricted to the items whose id is the id of one of
    [processed]. *)
Definition reassignedAmong (processed : list InventoryItem.t) (categoryId : string)
    (item : InventoryItem.t) : InventoryItem.t :=
  if String.eqb (InventoryItem.categoryId item) categoryId
     && existsb (fun d => String.eqb (InventoryItem.id d) (InventoryItem.id item)) processed
  then moveToDefault item else item.

(** The items [handleDelete] finds in the category. *)
Definition itemsInCategory (state : InventoryState) (categoryId : string)
    : list InventoryItem.t :=
  filter (fun item => String.eqb (InventoryItem.categoryId item) categoryId) (items state).

(** A state with two items in the category [tools] and that category. *)
Definition stockedState : InventoryState :=
  dispatchAll utc 1000 (initialState 0)
    [ ADD_CATEGORY toolsCategory;
      ADD_ITEM (exampleItem "i1" "tools");
      ADD_ITEM (exampleItem "i2" "default");
      ADD_ITEM (exampleItem "i3" "tools") ].

(** The record [handleDelete] logs. *)
Definition deletionRecord (idClock stampClock : Z) (state : InventoryState)
    (category : Category.t) : ActivityLog.t :=
  {| ActivityLog.id := timeToString idClock;
     ActivityLog.type := ActivityLog.delete;
     ActivityLog.description :=
       String.append "Deleted category "
         (String.append doubleQuote (String.append (Category.name category) doubleQuote));
     ActivityLog.itemId := None;
     ActivityLog.timestamp := JSDate.newDate stampClock;
     ActivityLog.userId := option_map User.id (user (auth state));
     ActivityLog.details := None |}.

(** [trim] for ASCII white space (space, tab, line feed, carriage
    return). *)
Definition isBlank (c : Ascii.ascii) : bool :=
  let n := Ascii.nat_of_ascii c in
  (Nat.eqb n 32 || Nat.eqb n 9 || Nat.eqb n 10 || Nat.eqb n 13)%bool.

Fixpoint dropBlanks (l : list Ascii.ascii) : list Ascii.ascii :=
  match l with
  | c :: rest => if isBlank c then dropBlanks rest else l
  | [] => []
  end.

Definition asciiTrim (s : string) : string :=
  string_of_list_ascii (rev (dropBlanks (rev (dropBlanks (list_ascii_of_string s))))).

(** A form that repeats the name of the default category in other case. *)
Definition generalForm : CategoryForm :=
  {| formName := "GENERAL"; formDescription := "Odds and ends"; formColor := "#6B7280" |}.

(** Actions that neither add a category nor replace the list. *)
Definition keepsCategoryIds (action : InventoryAction) : bool :=
  match action with
  | ADD_CATEGORY _ | SET_CATEGORIES _ => false
  | _ => true
  end.

(** ** The stand-alone inventory context ([src/unnamed/part_000])

    A second, smaller context: a list of items in component state with
    [addItem], [deleteItem] and [getItem]. [updateItem], which spreads a
    [Partial] object over an item, is left out. *)

Module SimpleInventory.

Record InventoryItem : Set := {
  id : string;
  name : string;
  quantity : number;
  category : string;
  lastUpdated : JSDate.t;
  minStockLevel : option number;
  unitType : option string;
  price : option number
}.

(** [Omit<InventoryItem, 'id' | 'lastUpdated'>] *)
Record NewItem : Set := {
  newName : string;
  newQuantity : number;
  newCategory : string;
  newMinStockLevel : option number;
  newUnitType : option string;
  newPrice : option number
}.

(** [{ ...item, id: crypto.randomUUID(), lastUpdated: new Date() }] *)
Definition stamped (uuid : string) (clock : Z) (item : NewItem) : InventoryItem :=
  {| id := uuid;
     name := newName item;
     quantity := newQuantity item;
     category := newCategory item;
     lastUpdated := JSDate.newDate clock;
     minStockLevel := newMinStockLevel item;
     unitType := newUnitType item;
     price := newPrice item |}.

(** [addItem(item)]: the state update, with the value [crypto.randomUUID()]
    returned and the clock reading. *)
Definition addItem (uuid : string) (clock : Z) (item : NewItem)
    (inventory : list InventoryItem) : list InventoryItem :=
  inventory ++ [stamped uuid clock item].

(** [deleteItem(id)] *)
Definition deleteItem (itemId : string) (inventory : list InventoryItem) : list InventoryItem :=
  filter (fun item => negb (String.eqb (id item) itemId)) inventory.

(** [getItem(id)]; [None] is [undefined]. *)
Definition getItem (itemId : string) (inventory : list InventoryItem) : option InventoryItem :=
  find (fun item => String.eqb (id item) itemId) inventory.

Definition sampleNewItem : NewItem :=
  {| newName := "Cement bag";
     newQuantity := 40%float;
     newCategory := "materials";
     newMinStockLevel := None;
     newUnitType := Some "bags";
     newPrice := None |}.

End SimpleInventory.

(** ** Dates: what [setHours(getHours() + 8)] computes *)

(** Replacing the hour field [h] of a local time by [h + 8] adds eight
    hours to that local time. *)
Lemma local_time_plus_eight (l : Z) :
  JSDate.MakeDate (JSDate.Day l)
    (JSDate.MakeTime (JSDate.HourFromTime l + 8) (JSDate.MinFromTime l)
       (JSDate.SecFromTime l) (JSDate.msFromTime l))
  = l + 8 * JSDate.msPerHour.
Proof.
  unfold JSDate.MakeDate, JSDate.MakeTime, JSDate.Day, JSDate.HourFromTime,
    JSDate.MinFromTime, JSDate.SecFromTime, JSDate.msFromTime,
    JSDate.msPerDay, JSDate.msPerHour, JSDate.msPerMinute, JSDate.msPerSecond,
    JSDate.HoursPerDay, JSDate.MinutesPerHour, JSDate.SecondsPerMinute.
  Z.div_mod_to_equations. lia.
Qed.

(** The expiry is eight hours later on the local wall clock, read back as
    an instant with the offset in force at that local time. *)
Lemma eightHoursFrom_local (tz : JSDate.TimeZone) (now : Z) :
  eightHoursFrom tz now
  = JSDate.TimeClip (JSDate.UTC tz (JSDate.LocalTime tz now + 8 * JSDate.msPerHour)).
Proof.
  unfold eightHoursFrom, JSDate.newDate. simpl.
  rewrite local_time_plus_eight. reflexivity.
Qed.

(** When the zone's offset is the same at [now] and at the expiry, the
    expiry is [now] plus eight hours of elapsed time. *)
Lemma eightHoursFrom_same_offset (tz : JSDate.TimeZone) (now : Z) :
  JSDate.offsetAtLocal tz (JSDate.LocalTime tz now + 8 * JSDate.msPerHour)
    = JSDate.offsetAtUTC tz now ->
  Z.abs (now + 8 * JSDate.msPerHour) <= 8640000000000000 ->
  eightHoursFrom tz now = JSDate.TimeValue (now + 8 * JSDate.msPerHour).
Proof.
  intros Hoff Hrange. rewrite eightHoursFrom_local.
  unfold JSDate.UTC. rewrite Hoff. unfold JSDate.LocalTime, JSDate.TimeClip.
  replace (now + JSDate.offsetAtUTC tz now + 8 * JSDate.msPerHour - JSDate.offsetAtUTC tz now)
    with (now + 8 * JSDate.msPerHour) by lia.
  destruct (Z.gtb_spec (Z.abs (now + 8 * JSDate.msPerHour)) 8640000000000000); [lia | reflexivity].
Qed.

Lemma eightHoursFrom_fixedZone (offset now : Z) :
  Z.abs (now + 8 * JSDate.msPerHour) <= 8640000000000000 ->
  eightHoursFrom (JSDate.fixedZone offset) now = JSDate.TimeValue (now + 8 * JSDate.msPerHour).
Proof.
  intros Hrange. apply eightHoursFrom_same_offset; [reflexivity | exact Hrange].
Qed.

(** Across the end of daylight saving time the same computation yields an
    instant nine hours after [now]. *)
Lemma eightHoursFrom_across_clock_change :
  eightHoursFrom JSDate.newYorkAutumn2024 eveOfClockChange
  = JSDate.TimeValue (eveOfClockChange + 9 * JSDate.msPerHour).
Proof. vm_compute. reflexivity. Qed.

(** Across its start the computation yields an instant seven hours after
    [now]. *)
Lemma eightHoursFrom_across_summer_time :
  eightHoursFrom JSDate.newYorkSpring2024 eveOfSummerTime
  = JSDate.TimeValue (eveOfSummerTime + 7 * JSDate.msPerHour).
Proof. vm_compute. reflexivity. Qed.

(** ** Frame lemmas of the reducer *)

(** [LOGIN] rewrites the [auth] field only. *)
Lemma LOGIN_sets_auth (tz : JSDate.TimeZone) (now : Z) (s : InventoryState) (u : User.t) :
  let s' := inventoryReducer tz now s (LOGIN u) in
  isAuthenticated (auth s') = true /\
  user (auth s') = Some u /\
  sessionExpiry (auth s') = Some (eightHoursFrom tz now) /\
  items s' = items s /\ categories s' = categories s /\
  activityLog s' = activityLog s /\ settings s' = settings s.
Proof. simpl. repeat split. Qed.

(** In a zone whose offset does not change, [LOGIN] sets the expiry to
    [now] plus eight hours. *)
Lemma LOGIN_expiry_fixedZone (offset now : Z) (s : InventoryState) (u : User.t) :
  Z.abs (now + 8 * JSDate.msPerHour) <= 8640000000000000 ->
  sessionExpiry (auth (inventoryReducer (JSDate.fixedZone offset) now s (LOGIN u)))
  = Some (JSDate.TimeValue (now + 8 * JSDate.msPerHour)).
Proof.
  intros Hrange. simpl. rewrite eightHoursFrom_fixedZone by exact Hrange. reflexivity.
Qed.

(** [REFRESH_SESSION] on an authenticated state rewrites [sessionExpiry]
    only. *)
Lemma REFRESH_SESSION_authenticated (tz : JSDate.TimeZone) (now : Z) (s : InventoryState) :
  isAuthenticated (auth s) = true ->
  let s' := inventoryReducer tz now s REFRESH_SESSION in
  sessionExpiry (auth s') = Some (eightHoursFrom tz now) /\
  isAuthenticated (auth s') = true /\
  user (auth s') = user (auth s) /\
  items s' = items s /\ categories s' = categories s /\
  activityLog s' = activityLog s /\ settings s' = settings s.
Proof.
  intros Hauth. simpl. rewrite Hauth. simpl. repeat split. exact Hauth.
Qed.

(** [REFRESH_SESSION] on an unauthenticated state returns its argument. *)
Lemma REFRESH_SESSION_unauthenticated (tz : JSDate.TimeZone) (now : Z) (s : InventoryState) :
  isAuthenticated (auth s) = false ->
  inventoryReducer tz now s REFRESH_SESSION = s.
Proof.
  intros Hauth. simpl. rewrite Hauth. reflexivity.
Qed.

Lemma REFRESH_SESSION_expiry_fixedZone (offset now : Z) (s : InventoryState) :
  isAuthenticated (auth s) = true ->
  Z.abs (now + 8 * JSDate.msPerHour) <= 8640000000000000 ->
  sessionExpiry (auth (inventoryReducer (JSDate.fixedZone offset) now s REFRESH_SESSION))
  = Some (JSDate.TimeValue (now + 8 * JSDate.msPerHour)).
Proof.
  intros Hauth Hrange. simpl. rewrite Hauth. simpl.
  rewrite eightHoursFrom_fixedZone by exact Hrange. reflexivity.
Qed.

(** ** Lists: replacing and removing by id *)

Section ById.
Context {A : Type} (key : A -> string).

Lemma replaceById_keys (y : A) (l : list A) :
  map key (replaceById key y l) = map key l.
Proof.
  unfold replaceById. induction l as [|x l IH]; simpl.
  - reflexivity.
  - rewrite IH. destruct (String.eqb_spec (key x) (key y)) as [E|E].
    + rewrite E. reflexivity.
    + reflexivity.
Qed.

Lemma replaceById_absent (y : A) (l : list A) :
  (forall x, In x l -> key x <> key y) -> replaceById key y l = l.
Proof.
  unfold replaceById. induction l as [|x l IH]; simpl; intros Habs.
  - reflexivity.
  - destruct (String.eqb_spec (key x) (key y)) as [E|E].
    + exfalso. apply (Habs x); [left; reflexivity | exact E].
    + rewrite IH; [reflexivity | intros z Hz; apply Habs; right; exact Hz].
Qed.

Lemma removeById_In (k : string) (l : list A) (x : A) :
  In x (removeById key k l) <-> In x l /\ key x <> k.
Proof.
  unfold removeById. rewrite filter_In.
  destruct (String.eqb_spec (key x) k) as [E|E]; simpl; intuition congruence.
Qed.

Lemma removeById_absent (k : string) (l : list A) :
  (forall x, In x l -> key x <> k) -> removeById key k l = l.
Proof.
  unfold removeById. induction l as [|x l IH]; simpl; intros Habs.
  - reflexivity.
  - destruct (String.eqb_spec (key x) k) as [E|E]; simpl.
    + exfalso. apply (Habs x); [left; reflexivity | exact E].
    + rewrite IH; [reflexivity | intros z Hz; apply Habs; right; exact Hz].
Qed.

Lemma removeById_twice (k : string) (l : list A) :
  removeById key k (removeById key k l) = removeById key k l.
Proof.
  apply removeById_absent. intros x Hx. apply removeById_In in Hx. tauto.
Qed.

Lemma removeById_keys (k : string) (l : list A) :
  map key (removeById key k l) = filter (fun s => negb (String.eqb s k)) (map key l).
Proof.
  unfold removeById. rewrite filter_map_swap. reflexivity.
Qed.

Lemma removeById_NoDup (k : string) (l : list A) :
  NoDup (map key l) -> NoDup (map key (removeById key k l)).
Proof.
  intros Hnd. rewrite removeById_keys. apply NoDup_filter. exact Hnd.
Qed.

Lemma append_NoDup (y : A) (l : list A) :
  NoDup (map key l) -> ~ In (key y) (map key l) -> NoDup (map key (l ++ [y])).
Proof.
  intros Hnd Hfresh. rewrite map_app. simpl. apply NoDup_app.
  - exact Hnd.
  - constructor; [simpl; tauto | constructor].
  - intros k Hk [E|[]]. subst k. exact (Hfresh Hk).
Qed.
End ById.

Lemma state_eta (s : InventoryState) :
  {| items := items s; categories := categories s; activityLog := activityLog s;
     settings := settings s; auth := auth s |} = s.
Proof. destruct s. reflexivity. Qed.

(** The reducer's item and category cases, through the list functions
    above. *)
Lemma reducer_UPDATE_ITEM tz now s u :
  inventoryReducer tz now s (UPDATE_ITEM u)
  = withItems s (replaceById InventoryItem.id u (items s)).
Proof. reflexivity. Qed.

Lemma reducer_DELETE_ITEM tz now s x :
  inventoryReducer tz now s (DELETE_ITEM x)
  = withItems s (removeById InventoryItem.id x (items s)).
Proof. reflexivity. Qed.

Lemma reducer_UPDATE_CATEGORY tz now s c :
  inventoryReducer tz now s (UPDATE_CATEGORY c)
  = withCategories s (replaceById Category.id c (categories s)).
Proof. reflexivity. Qed.

Lemma reducer_DELETE_CATEGORY tz now s x :
  inventoryReducer tz now s (DELETE_CATEGORY x)
  = withCategories s (removeById Category.id x (categories s)).
Proof. reflexivity. Qed.

Lemma reducer_items_frame tz now s a :
  touchesItems a = false -> items (inventoryReducer tz now s a) = items s.
Proof.
  destruct a; simpl; intros H; try discriminate; try reflexivity.
  destruct (isAuthenticated (auth s)); reflexivity.
Qed.

Lemma reducer_categories_frame tz now s a :
  touchesCategories a = false -> categories (inventoryReducer tz now s a) = categories s.
Proof.
  destruct a; simpl; intros H; try discriminate; try reflexivity.
  destruct (isAuthenticated (auth s)); reflexivity.
Qed.

(** ** Item ids *)

(** One reducer step keeps item ids distinct when the caller keeps its
    side of the contract. *)
Lemma reducer_keeps_unique_ids tz now s a :
  uniqueItemIds s -> itemCallerContract s a ->
  uniqueItemIds (inventoryReducer tz now s a).
Proof.
  unfold uniqueItemIds, itemIds. intros Hnd Hc.
  destruct (touchesItems a) eqn:Ht.
  - destruct a; try discriminate; simpl in Hc.
    + simpl. apply append_NoDup; assumption.
    + rewrite reducer_UPDATE_ITEM. simpl. rewrite replaceById_keys. exact Hnd.
    + rewrite reducer_DELETE_ITEM. simpl. apply removeById_NoDup. exact Hnd.
    + simpl. exact Hc.
  - rewrite reducer_items_frame by exact Ht. exact Hnd.
Qed.

(** C1 as stated fails: dispatching [ADD_ITEM] twice with the same item
    reaches a state that holds the id [i1] twice. *)
Lemma duplicate_item_ids_reachable :
  let s := inventoryReducer utc 2000
             (inventoryReducer utc 1000 (initialState 0) (ADD_ITEM (exampleItem "i1" "default")))
             (ADD_ITEM (exampleItem "i1" "default")) in
  reachable utc 0 s /\ itemIds (items s) = ["i1"; "i1"] /\ ~ uniqueItemIds s.
Proof.
  cbv zeta. split; [| split].
  - apply (reach_dispatch utc 0 anyAction _ 2000 (ADD_ITEM (exampleItem "i1" "default"))).
    + apply (reach_dispatch utc 0 anyAction _ 1000 (ADD_ITEM (exampleItem "i1" "default"))).
      * apply reach_initial.
      * exact I.
    + exact I.
  - reflexivity.
  - unfold uniqueItemIds. simpl. intros Hnd. inversion Hnd as [|x l Hin _]; subst.
    apply Hin. left. reflexivity.
Qed.

(** C1 (amended): in every state obtained from the initial state by
    dispatched actions in which each [ADD_ITEM] carries an id that is not
    yet present and each [SET_ITEMS] carries items with pairwise-distinct
    ids, the items have pairwise-distinct ids. The reducer does not check
    either condition; they are the callers' side. *)
Theorem unique_item_ids_under_caller_contract tz loadTime s :
  reachableUnder tz loadTime itemCallerContract s -> uniqueItemIds s.
Proof.
  induction 1 as [|s now a Hreach IH Hc].
  - unfold uniqueItemIds. simpl. constructor.
  - apply reducer_keeps_unique_ids; assumption.
Qed.

Lemma unique_item_ids_under_caller_contract_witness :
  uniqueItemIds
    (inventoryReducer utc 2000
       (inventoryReducer utc 1000 (initialState 0) (ADD_ITEM (exampleItem "i1" "default")))
       (ADD_ITEM (exampleItem "i2" "default"))).
Proof.
  apply (unique_item_ids_under_caller_contract utc 0).
  apply reach_dispatch.
  - apply reach_dispatch.
    + apply reach_initial.
    + simpl. tauto.
  - simpl. intros [E|[]]. discriminate E.
Defined.


(** ** The default category *)

Lemma hasDefaultCategory_app (l1 l2 : list Category.t) :
  hasDefaultCategory l1 -> hasDefaultCategory (l1 ++ l2).
Proof.
  intros [c [Hin Hid]]. exists c. split; [apply in_or_app; left; exact Hin | exact Hid].
Qed.

Lemma hasDefaultCategory_replace (c : Category.t) (l : list Category.t) :
  hasDefaultCategory l -> hasDefaultCategory (replaceById Category.id c l).
Proof.
  intros [d [Hin Hid]]. unfold replaceById.
  exists (if String.eqb (Category.id d) (Category.id c) then c else d). split.
  - apply (in_map (fun x => if String.eqb (Category.id x) (Category.id c) then c else x)).
    exact Hin.
  - destruct (String.eqb_spec (Category.id d) (Category.id c)) as [E|E]; congruence.
Qed.

Lemma hasDefaultCategory_remove (x : string) (l : list Category.t) :
  x <> "default" -> hasDefaultCategory l -> hasDefaultCategory (removeById Category.id x l).
Proof.
  intros Hx [d [Hin Hid]]. exists d. split; [| exact Hid].
  apply removeById_In. split; [exact Hin | congruence].
Qed.

(** One reducer step keeps the default category when the caller keeps
    its side of the contract. *)
Lemma reducer_keeps_default_category tz now s a :
  hasDefaultCategory (categories s) -> categoryCallerContract s a ->
  hasDefaultCategory (categories (inventoryReducer tz now s a)).
Proof.
  intros Hdef Hc. destruct (touchesCategories a) eqn:Ht.
  - destruct a; try discriminate; simpl in Hc.
    + simpl. apply hasDefaultCategory_app. exact Hdef.
    + rewrite reducer_UPDATE_CATEGORY. simpl. apply hasDefaultCategory_replace. exact Hdef.
    + rewrite reducer_DELETE_CATEGORY. simpl. apply hasDefaultCategory_remove; assumption.
    + simpl. exact Hc.
  - rewrite reducer_categories_frame by exact Ht. exact Hdef.
Qed.

Lemma dispatchAll_keeps_default_category tz now (actions : list InventoryAction) :
  forall s,
    hasDefaultCategory (categories s) ->
    Forall (categoryCallerContract s) actions ->
    hasDefaultCategory (categories (dispatchAll tz now s actions)).
Proof.
  unfold dispatchAll. induction actions as [|a actions IH]; simpl; intros s Hdef Hall.
  - exact Hdef.
  - inversion Hall as [|a' l' Ha Hrest]; subst. apply IH.
    + apply reducer_keeps_default_category; assumption.
    + exact Hrest.
Qed.

(** [handleDelete] never dispatches the deletion of the default category. *)
Lemma handleDelete_respects_contract idClock stampClock confirmed s c :
  Forall (categoryCallerContract s) (handleDelete idClock stampClock confirmed s c).
Proof.
  unfold handleDelete.
  destruct (String.eqb_spec (Category.id c) "default") as [E|E]; [constructor |].
  set (moved := filter _ (items s)).
  destruct ((0 <? Z.of_nat (List.length moved)) && negb confirmed); [constructor |].
  apply Forall_app. split.
  - destruct (0 <? Z.of_nat (List.length moved)); [| constructor].
    apply Forall_forall. intros a Ha. apply in_map_iff in Ha.
    destruct Ha as [i [Hi _]]. subst a. exact I.
  - constructor; [exact E |]. constructor; [exact I | constructor].
Qed.

(** C2 as stated fails: the reducer deletes the default category when
    asked to. *)
Lemma default_category_deleted_by_reducer :
  let s := inventoryReducer utc 1000 (initialState 0) (DELETE_CATEGORY "default") in
  reachable utc 0 s /\
  hasDefaultCategory (categories (initialState 0)) /\
  categories s = [] /\
  ~ hasDefaultCategory (categories s).
Proof.
  cbv zeta. split; [| split; [| split]].
  - apply (reach_dispatch utc 0 anyAction _ 1000 (DELETE_CATEGORY "default")).
    + apply reach_initial.
    + exact I.
  - eexists. split; [left; reflexivity | reflexivity].
  - reflexivity.
  - intros [c [[] _]].
Qed.

(** C2 (amended): the category with id [default] is present in every
    state reached by actions other than [DELETE_CATEGORY] of [default] and
    [SET_CATEGORIES] of a list without it, and each such action keeps it
    in any state that holds it. The reducer does not protect it; the guard
    is in the caller [handleDelete], whose dispatches keep it whatever
    category it is asked to delete. *)
Theorem default_category_kept_under_caller_contract tz loadTime :
  (forall s, reachableUnder tz loadTime categoryCallerContract s ->
             hasDefaultCategory (categories s)) /\
  (forall now s a, hasDefaultCategory (categories s) -> categoryCallerContract s a ->
                   hasDefaultCategory (categories (inventoryReducer tz now s a))) /\
  (forall now idClock stampClock confirmed s c,
      hasDefaultCategory (categories s) ->
      hasDefaultCategory
        (categories (dispatchAll tz now s (handleDelete idClock stampClock confirmed s c)))).
Proof.
  split; [| split].
  - induction 1 as [|s now a Hreach IH Hc].
    + eexists. split; [left; reflexivity | reflexivity].
    + apply reducer_keeps_default_category; assumption.
  - intros now s a. apply reducer_keeps_default_category.
  - intros now idClock stampClock confirmed s c Hdef.
    apply dispatchAll_keeps_default_category;
      [exact Hdef | apply handleDelete_respects_contract].
Qed.

Lemma default_category_kept_under_caller_contract_witness :
  hasDefaultCategory
    (categories (inventoryReducer utc 1000 (initialState 0) (DELETE_CATEGORY "tools"))) /\
  hasDefaultCategory
    (categories
       (dispatchAll utc 1000 (initialState 0)
          (handleDelete 1000 1000 true (initialState 0)
             (hd toolsCategory (categories (initialState 0)))))).
Proof.
  destruct (default_category_kept_under_caller_contract utc 0) as [Hreach [Hstep Hcaller]].
  split.
  - apply Hstep.
    + apply Hreach. apply reach_initial.
    + simpl. discriminate.
  - apply Hcaller. apply Hreach. apply reach_initial.
Defined.

(** ** The activity log *)

(** C4: [ADD_ACTIVITY] puts the record at the head of the log, so two
    records dispatched one after the other end up newest first. *)
Theorem ADD_ACTIVITY_prepends tz now1 now2 s r1 r2 :
  activityLog (inventoryReducer tz now1 s (ADD_ACTIVITY r1)) = r1 :: activityLog s /\
  activityLog
    (inventoryReducer tz now2 (inventoryReducer tz now1 s (ADD_ACTIVITY r1)) (ADD_ACTIVITY r2))
  = r2 :: r1 :: activityLog s.
Proof. split; reflexivity. Qed.

(** ** Unknown actions *)

(** C6: the reducer returns a state for every state and action, and an
    action whose [type] is none of the fourteen case labels gets the input
    state back, with no effect on the page either. *)
Theorem unknown_action_returns_state tz now s a marked :
  ~ In (actionType a) actionKinds ->
  inventoryReducer tz now s a = s /\ darkMarker a marked = marked.
Proof.
  intros Hunknown.
  destruct a; try (exfalso; apply Hunknown; simpl; tauto).
  split; reflexivity.
Qed.

Lemma unknown_action_returns_state_witness :
  inventoryReducer utc 1000 (initialState 0) (OTHER_ACTION "RESET") = initialState 0 /\
  darkMarker (OTHER_ACTION "RESET") true = true.
Proof.
  apply (unknown_action_returns_state utc 1000 (initialState 0) (OTHER_ACTION "RESET") true).
  simpl. intros H.
  repeat (destruct H as [H|H]; [discriminate H |]). exact H.
Defined.

(** ** Deleting and updating items *)

(** C7: [DELETE_ITEM] keeps, in order, exactly the items whose id differs
    from the given one and leaves the other fields alone; it returns the
    input state when no item has that id; and reducing with it a second
    time changes nothing more. *)
Theorem DELETE_ITEM_removes_matching tz now1 now2 s x :
  let s' := inventoryReducer tz now1 s (DELETE_ITEM x) in
  items s' = removeById InventoryItem.id x (items s) /\
  (forall i, In i (items s') <-> In i (items s) /\ InventoryItem.id i <> x) /\
  (categories s' = categories s /\ activityLog s' = activityLog s /\
   settings s' = settings s /\ auth s' = auth s) /\
  ((forall i, In i (items s) -> InventoryItem.id i <> x) -> s' = s) /\
  inventoryReducer tz now2 s' (DELETE_ITEM x) = s'.
Proof.
  cbv zeta. rewrite !reducer_DELETE_ITEM. simpl.
  split; [reflexivity |]. split; [apply removeById_In |].
  split; [repeat split |]. split.
  - intros Habsent. rewrite removeById_absent by exact Habsent. apply state_eta.
  - unfold withItems. simpl. rewrite removeById_twice. reflexivity.
Qed.

Lemma DELETE_ITEM_removes_matching_witness :
  inventoryReducer utc 2000
    (withItems (initialState 0) [exampleItem "i1" "default"; exampleItem "i2" "tools"])
    (DELETE_ITEM "i3")
  = withItems (initialState 0) [exampleItem "i1" "default"; exampleItem "i2" "tools"].
Proof.
  destruct (DELETE_ITEM_removes_matching utc 2000 3000
              (withItems (initialState 0) [exampleItem "i1" "default"; exampleItem "i2" "tools"])
              "i3") as [_ [_ [_ [Habsent _]]]].
  apply Habsent.
  simpl. intros i [E|[E|[]]]; subst i; simpl; discriminate.
Defined.

(** C10: [UPDATE_ITEM] with an item whose id no stored item has returns
    the input state: nothing is inserted and nothing fails. *)
Theorem UPDATE_ITEM_absent_changes_nothing tz now s u :
  (forall i, In i (items s) -> InventoryItem.id i <> InventoryItem.id u) ->
  inventoryReducer tz now s (UPDATE_ITEM u) = s.
Proof.
  intros Habsent. rewrite reducer_UPDATE_ITEM.
  rewrite replaceById_absent by exact Habsent. apply state_eta.
Qed.

Lemma UPDATE_ITEM_absent_changes_nothing_witness :
  inventoryReducer utc 2000
    (withItems (initialState 0) [exampleItem "i1" "default"])
    (UPDATE_ITEM (exampleItem "i2" "tools"))
  = withItems (initialState 0) [exampleItem "i1" "default"].
Proof.
  apply (UPDATE_ITEM_absent_changes_nothing utc 2000
           (withItems (initialState 0) [exampleItem "i1" "default"])
           (exampleItem "i2" "tools")).
  simpl. intros i [E|[]]; subst i; simpl; discriminate.
Defined.

(** ** Deleting a category *)

(** The scenario of the specification: add the category [tools], add the
    item [i1] in it, delete the category. The category is gone and the item
    still refers to it. *)
Example delete_tools_scenario :
  let s := dispatchAll utc 1000 (initialState 0)
             [ ADD_CATEGORY toolsCategory;
               ADD_ITEM (exampleItem "i1" "tools");
               DELETE_CATEGORY "tools" ] in
  hasCategoryb "tools" (categories s) = false /\
  hasCategoryb "default" (categories s) = true /\
  map InventoryItem.categoryId (items s) = ["tools"].
Proof. cbv zeta. repeat split. Qed.

(** C9: [DELETE_CATEGORY] removes the categories with the given id and
    nothing else: the items are the same list, so every item that referred
    to the deleted category still does, and none is moved to [default]. *)
Theorem DELETE_CATEGORY_does_not_cascade tz now s x :
  let s' := inventoryReducer tz now s (DELETE_CATEGORY x) in
  items s' = items s /\
  categories s' = removeById Category.id x (categories s) /\
  (forall c, In c (categories s') <-> In c (categories s) /\ Category.id c <> x) /\
  hasCategoryb x (categories s') = false /\
  filter (fun i => String.eqb (InventoryItem.categoryId i) x) (items s')
  = filter (fun i => String.eqb (InventoryItem.categoryId i) x) (items s) /\
  (activityLog s' = activityLog s /\ settings s' = settings s /\ auth s' = auth s).
Proof.
  cbv zeta. rewrite reducer_DELETE_CATEGORY. simpl.
  split; [reflexivity |]. split; [reflexivity |]. split; [apply removeById_In |].
  split; [| repeat split].
  unfold hasCategoryb. apply not_true_is_false. intros Hex.
  apply existsb_exists in Hex. destruct Hex as [c [Hin Heq]].
  apply removeById_In in Hin. apply String.eqb_eq in Heq. tauto.
Qed.

(** ** What is written to storage *)

(** C5: [save] writes the serialized blob under the storage key; the
    blob's [auth] is the logged-out value when [rememberSession] is false,
    whatever the state's [auth] is, and the state's [auth] when it is true.
    The other four fields are the state's. *)
Theorem save_persists_session_only_on_request stringify s localStorage :
  getItem storageKey (save stringify s localStorage) = Some (stringify (dataToSave s)) /\
  (Settings.rememberSession (settings s) = false -> auth (dataToSave s) = loggedOut) /\
  (Settings.rememberSession (settings s) = true -> auth (dataToSave s) = auth s) /\
  (items (dataToSave s) = items s /\ categories (dataToSave s) = categories s /\
   activityLog (dataToSave s) = activityLog s /\ settings (dataToSave s) = settings s).
Proof.
  split; [| split; [| split]].
  - unfold save, getItem, setItem. rewrite String.eqb_refl. reflexivity.
  - intros Hforget. unfold dataToSave. simpl. rewrite Hforget. reflexivity.
  - intros Hremember. unfold dataToSave. simpl. rewrite Hremember. reflexivity.
  - repeat split.
Qed.

Lemma save_persists_session_only_on_request_witness :
  isAuthenticated (auth signedInForgetful) = true /\
  auth (dataToSave signedInForgetful) = loggedOut.
Proof.
  split; [reflexivity |].
  destruct (save_persists_session_only_on_request authFlagText signedInForgetful
              (fun _ => None)) as [_ [Hforget _]].
  apply Hforget. reflexivity.
Defined.

(** ** The session expiry across a clock change *)

(** C3 at a failing input: a [LOGIN] reduced in New York at 22:00 on
    2 November 2024, four hours before daylight saving time ends, sets
    [sessionExpiry] nine hours after [now], not eight. The other fields of
    the claim hold there (and everywhere, by [LOGIN_sets_auth]). *)
Theorem LOGIN_expiry_nine_hours_across_clock_change :
  let s' := inventoryReducer JSDate.newYorkAutumn2024 eveOfClockChange
              (initialState 0) (LOGIN exampleUser) in
  isAuthenticated (auth s') = true /\
  user (auth s') = Some exampleUser /\
  sessionExpiry (auth s')
  = Some (JSDate.TimeValue (eveOfClockChange + 9 * JSDate.msPerHour)) /\
  sessionExpiry (auth s')
  <> Some (JSDate.TimeValue (eveOfClockChange + 8 * JSDate.msPerHour)).
Proof.
  cbv zeta. split; [reflexivity |]. split; [reflexivity |].
  assert (E : sessionExpiry (auth (inventoryReducer JSDate.newYorkAutumn2024 eveOfClockChange
                                    (initialState 0) (LOGIN exampleUser)))
              = Some (JSDate.TimeValue (eveOfClockChange + 9 * JSDate.msPerHour))).
  { vm_compute. reflexivity. }
  split; [exact E |]. rewrite E. vm_compute. discriminate.
Qed.

(** C8 at a failing input: a [REFRESH_SESSION] of an authenticated state,
    reduced at the same instant, moves [sessionExpiry] nine hours after
    [now], not eight; user and flag are kept. *)
Theorem REFRESH_SESSION_expiry_nine_hours_across_clock_change :
  let s' := inventoryReducer JSDate.newYorkAutumn2024 eveOfClockChange
              signedIn REFRESH_SESSION in
  isAuthenticated (auth signedIn) = true /\
  isAuthenticated (auth s') = true /\
  user (auth s') = user (auth signedIn) /\
  sessionExpiry (auth s')
  = Some (JSDate.TimeValue (eveOfClockChange + 9 * JSDate.msPerHour)) /\
  sessionExpiry (auth s')
  <> Some (JSDate.TimeValue (eveOfClockChange + 8 * JSDate.msPerHour)).
Proof.
  cbv zeta. split; [reflexivity |]. split; [reflexivity |]. split; [reflexivity |].
  assert (E : sessionExpiry (auth (inventoryReducer JSDate.newYorkAutumn2024 eveOfClockChange
                                    signedIn REFRESH_SESSION))
              = Some (JSDate.TimeValue (eveOfClockChange + 9 * JSDate.msPerHour))).
  { vm_compute. reflexivity. }
  split; [exact E |]. rewrite E. vm_compute. discriminate.
Qed.

(** * Further properties of the store and its callers *)

(** ** More on replacing and removing by id *)

Section ByIdMore.
Context {A : Type} (key : A -> string).

Lemma replaceById_In (y : A) (l : list A) (x : A) :
  In x (replaceById key y l)
  <-> (x = y /\ In (key y) (map key l)) \/ (In x l /\ key x <> key y).
Proof.
  unfold replaceById. rewrite in_map_iff. split.
  - intros [z [Hz Hin]]. destruct (String.eqb_spec (key z) (key y)) as [E|E].
    + left. split; [congruence |]. rewrite <- E. apply in_map. exact Hin.
    + right. subst x. split; assumption.
  - intros [[Hx Hin]|[Hin Hne]].
    + apply in_map_iff in Hin. destruct Hin as [z [Hz Hin]]. exists z.
      split; [| exact Hin]. rewrite Hz, String.eqb_refl. congruence.
    + exists x. split; [| exact Hin].
      destruct (String.eqb_spec (key x) (key y)); [contradiction | reflexivity].
Qed.

Lemma replaceById_length (y : A) (l : list A) :
  List.length (replaceById key y l) = List.length l.
Proof. unfold replaceById. apply length_map. Qed.

Lemma removeById_app (k : string) (l1 l2 : list A) :
  removeById key k (l1 ++ l2) = removeById key k l1 ++ removeById key k l2.
Proof. unfold removeById. apply filter_app. Qed.

Lemma removeById_appended (y : A) (l : list A) :
  ~ In (key y) (map key l) -> removeById key (key y) (l ++ [y]) = l.
Proof.
  intros Hfresh. rewrite removeById_app. rewrite removeById_absent.
  - unfold removeById. simpl. rewrite String.eqb_refl. simpl. apply app_nil_r.
  - intros x Hx E. apply Hfresh. rewrite <- E. apply in_map. exact Hx.
Qed.
End ByIdMore.

(** ** The session fields *)




(** X2: each action's case assigns at most one top-level field; the other
    four are those of the input state. So item and category actions never
    touch the session, and no action but [UPDATE_SETTINGS] changes the
    settings. *)
Theorem reducer_leaves_other_fields tz now s a :
  let s' := inventoryReducer tz now s a in
  (written a <> Some ItemsField -> items s' = items s) /\
  (written a <> Some CategoriesField -> categories s' = categories s) /\
  (written a <> Some ActivityLogField -> activityLog s' = activityLog s) /\
  (written a <> Some SettingsField -> settings s' = settings s) /\
  (written a <> Some AuthField -> auth s' = auth s).
Proof.
  cbv zeta.
  destruct a; simpl; try destruct (isAuthenticated (auth s));
    repeat split; intros H; try reflexivity; exfalso; apply H; reflexivity.
Qed.

(** ** Settings *)

Lemma orElse_twice {A : Type} (o : option A) (b : A) : orElse o (orElse o b) = orElse o b.
Proof. destruct o; reflexivity. Qed.

Lemma mergeSettings_twice (b : Settings.t) (p : PartialSettings.t) :
  mergeSettings (mergeSettings b p) p = mergeSettings b p.
Proof. unfold mergeSettings. simpl. rewrite !orElse_twice. reflexivity. Qed.

Lemma mergeSettings_nothing (b : Settings.t) : mergeSettings b noSettings = b.
Proof. destruct b. reflexivity. Qed.

(** X3: [UPDATE_SETTINGS] is idempotent, on the state and on the dark
    marker of the page, and with a payload that has no key it returns the
    input state. *)
Theorem UPDATE_SETTINGS_idempotent tz now1 now2 s p marked :
  inventoryReducer tz now2 (inventoryReducer tz now1 s (UPDATE_SETTINGS p)) (UPDATE_SETTINGS p)
  = inventoryReducer tz now1 s (UPDATE_SETTINGS p) /\
  darkMarker (UPDATE_SETTINGS p) (darkMarker (UPDATE_SETTINGS p) marked)
  = darkMarker (UPDATE_SETTINGS p) marked /\
  inventoryReducer tz now1 s (UPDATE_SETTINGS noSettings) = s.
Proof.
  split; [| split].
  - simpl. unfold withSettings. simpl. rewrite mergeSettings_twice. reflexivity.
  - simpl. destruct (PartialSettings.theme p) as [[|]|]; reflexivity.
  - simpl. rewrite mergeSettings_nothing. apply state_eta.
Qed.

Lemma settings_eta_theme (b : Settings.t) :
  mergeSettings b (themeOnly (Settings.theme b)) = b.
Proof. destruct b. reflexivity. Qed.

(** X4: toggling the theme from the sidebar twice gives back the state it
    started from, and after each toggle the dark marker of the page agrees
    with the stored theme. *)
Theorem toggleTheme_twice tz now1 now2 s marked :
  let s1 := inventoryReducer tz now1 s (toggleTheme s) in
  let s2 := inventoryReducer tz now2 s1 (toggleTheme s1) in
  s2 = s /\
  Settings.theme (settings s1) <> Settings.theme (settings s) /\
  (darkMarker (toggleTheme s) marked = true <-> Settings.theme (settings s1) = Settings.dark).
Proof.
  cbv zeta. destruct s as [its cats log st au]. destruct st. simpl.
  destruct theme; simpl; repeat split; try discriminate; try reflexivity;
    intros H; discriminate H.
Qed.

(** ** Items *)

(** X5: [UPDATE_ITEM] keeps the ids of the items, in order, and therefore
    their number; afterwards the list holds the payload if some item had
    its id, and otherwise exactly the items it held whose id differs. *)
Theorem UPDATE_ITEM_replaces_matching tz now s u :
  let s' := inventoryReducer tz now s (UPDATE_ITEM u) in
  itemIds (items s') = itemIds (items s) /\
  List.length (items s') = List.length (items s) /\
  (forall x, In x (items s')
             <-> (x = u /\ In (InventoryItem.id u) (itemIds (items s)))
                 \/ (In x (items s) /\ InventoryItem.id x <> InventoryItem.id u)).
Proof.
  cbv zeta. rewrite reducer_UPDATE_ITEM. simpl. split; [| split].
  - apply replaceById_keys.
  - apply replaceById_length.
  - intros x. apply replaceById_In.
Qed.

(** X6: adding an item under a fresh id and then deleting that id gives
    back the state before the addition. *)
Theorem ADD_ITEM_then_DELETE_ITEM tz now1 now2 s p :
  ~ In (InventoryItem.id p) (itemIds (items s)) ->
  inventoryReducer tz now2 (inventoryReducer tz now1 s (ADD_ITEM p))
    (DELETE_ITEM (InventoryItem.id p))
  = s.
Proof.
  intros Hfresh. rewrite reducer_DELETE_ITEM.
  replace (items (inventoryReducer tz now1 s (ADD_ITEM p))) with (items s ++ [p])
    by reflexivity.
  rewrite (removeById_appended InventoryItem.id p (items s) Hfresh).
  destruct s. reflexivity.
Qed.

Lemma ADD_ITEM_then_DELETE_ITEM_witness :
  inventoryReducer utc 2000
    (inventoryReducer utc 1000 (initialState 0) (ADD_ITEM (exampleItem "i1" "default")))
    (DELETE_ITEM "i1")
  = initialState 0.
Proof.
  apply (ADD_ITEM_then_DELETE_ITEM utc 1000 2000 (initialState 0) (exampleItem "i1" "default")).
  simpl. tauto.
Defined.

(** ** Batches of dispatches *)

Lemma dispatchAll_app tz now s (l1 l2 : list InventoryAction) :
  dispatchAll tz now s (l1 ++ l2) = dispatchAll tz now (dispatchAll tz now s l1) l2.
Proof. unfold dispatchAll. apply fold_left_app. Qed.

Lemma reducer_items_unwritten tz now s a :
  written a <> Some ItemsField -> items (inventoryReducer tz now s a) = items s.
Proof.
  intros H. apply reducer_items_frame. destruct a; try reflexivity; exfalso; apply H; reflexivity.
Qed.

Lemma reducer_categories_unwritten tz now s a :
  written a <> Some CategoriesField -> categories (inventoryReducer tz now s a) = categories s.
Proof.
  intros H. apply reducer_categories_frame.
  destruct a; try reflexivity; exfalso; apply H; reflexivity.
Qed.

Lemma reducer_auth_unwritten tz now s a :
  written a <> Some AuthField -> auth (inventoryReducer tz now s a) = auth s.
Proof.
  intros H. destruct a; try reflexivity; exfalso; apply H; reflexivity.
Qed.

Lemma dispatchAll_items_unwritten tz now (actions : list InventoryAction) :
  forall s, Forall (fun a => written a <> Some ItemsField) actions ->
            items (dispatchAll tz now s actions) = items s.
Proof.
  unfold dispatchAll. induction actions as [|a actions IH]; simpl; intros s Hall.
  - reflexivity.
  - inversion Hall as [|a' l' Ha Hrest]; subst. rewrite IH by exact Hrest.
    apply reducer_items_unwritten. exact Ha.
Qed.

Lemma dispatchAll_categories_unwritten tz now (actions : list InventoryAction) :
  forall s, Forall (fun a => written a <> Some CategoriesField) actions ->
            categories (dispatchAll tz now s actions) = categories s.
Proof.
  unfold dispatchAll. induction actions as [|a actions IH]; simpl; intros s Hall.
  - reflexivity.
  - inversion Hall as [|a' l' Ha Hrest]; subst. rewrite IH by exact Hrest.
    apply reducer_categories_unwritten. exact Ha.
Qed.

(** ** Restoring the saved state *)

(** X7: the load effect signs the user in exactly when the saved blob
    holds an authenticated session whose expiry is after the current time.
    The restored session gets a new expiry, computed from the time of the
    load; the saved one is not kept. A missing [auth], a cleared flag, an
    expiry that has passed or is not a date leave [auth] as it was. *)
Theorem load_restores_only_live_sessions tz clock s parsedData :
  let s' := dispatchAll tz clock s (loadActions clock parsedData) in
  (forall a, savedAuth parsedData = Some a ->
             savedIsAuthenticated a = true ->
             dateAfter (savedSessionExpiry a) (JSDate.newDate clock) = true ->
             auth s' = {| isAuthenticated := true;
                          user := Some (savedUser a);
                          sessionExpiry := Some (eightHoursFrom tz clock) |}) /\
  ((forall a, savedAuth parsedData = Some a ->
              savedIsAuthenticated a = true ->
              dateAfter (savedSessionExpiry a) (JSDate.newDate clock) = false) ->
   auth s' = auth s).
Proof.
  cbv zeta. destruct parsedData as [its cats st log au]. unfold loadActions. simpl.
  rewrite !dispatchAll_app.
  set (s0 := dispatchAll tz clock
               (dispatchAll tz clock
                  (dispatchAll tz clock (dispatchAll tz clock s _) _) _) _).
  assert (Hframe : auth s0 = auth s).
  { unfold s0.
    destruct its, cats, st, log as [[records|]|]; reflexivity. }
  split.
  - intros a Hsome Hflag Hlive. subst au. rewrite Hflag, Hlive. reflexivity.
  - intros Hdead. destruct au as [a|]; [| exact Hframe].
    destruct (savedIsAuthenticated a) eqn:Hflag; [| exact Hframe].
    rewrite (Hdead a eq_refl Hflag). exact Hframe.
Qed.

(** X8: the load effect restores each top-level field on its own: a field
    of the blob that is present replaces (for settings: is merged into) the
    field of the state, a missing one leaves the state's field alone, and
    an [activityLog] that is not an array empties the log. *)
Theorem load_restores_fields_independently tz clock s parsedData :
  let s' := dispatchAll tz clock s (loadActions clock parsedData) in
  items s' = orElse (savedItems parsedData) (items s) /\
  categories s' = orElse (savedCategories parsedData) (categories s) /\
  settings s' = match savedSettings parsedData with
                | Some p => mergeSettings (settings s) p
                | None => settings s
                end /\
  activityLog s' = match savedActivityLog parsedData with
                   | Some (LogArray records) => records
                   | Some LogNotArray => []
                   | None => activityLog s
                   end.
Proof.
  cbv zeta. destruct parsedData as [its cats st log au]. unfold loadActions. simpl.
  destruct its, cats, st, log as [[records|]|], au as [[flag u e]|]; simpl;
    try destruct flag; try destruct (dateAfter e (JSDate.newDate clock));
    repeat split.
Qed.

(** ** The end of a session *)

(** X9: [LOGOUT] puts [auth] to the logged-out value; from there a
    [REFRESH_SESSION] or a second [LOGOUT] changes nothing, and the
    session monitor has nothing to dispatch. *)
Theorem LOGOUT_ends_session tz now1 now2 s :
  let s' := inventoryReducer tz now1 s LOGOUT in
  auth s' = loggedOut /\
  inventoryReducer tz now2 s' REFRESH_SESSION = s' /\
  inventoryReducer tz now2 s' LOGOUT = s' /\
  sessionMonitorTick now2 s' = [].
Proof. cbv zeta. repeat split. Qed.

(** X10: after a [LOGIN] at [t0] in a zone with a fixed offset, a tick of
    the session monitor at [t1] leaves the state alone as long as [t1] is
    at most eight hours after [t0], the expiry itself included, and logs
    out (touching nothing but [auth]) once [t1] is later. *)
Theorem session_monitor_after_LOGIN offset t0 t1 s u :
  Z.abs (t0 + 8 * JSDate.msPerHour) <= 8640000000000000 ->
  let s1 := inventoryReducer (JSDate.fixedZone offset) t0 s (LOGIN u) in
  let s2 := dispatchAll (JSDate.fixedZone offset) t1 s1 (sessionMonitorTick t1 s1) in
  (t1 <= t0 + 8 * JSDate.msPerHour -> s2 = s1) /\
  (t0 + 8 * JSDate.msPerHour < t1 -> s2 = withAuth s loggedOut).
Proof.
  intros Hrange. cbv zeta.
  unfold sessionMonitorTick, sessionMonitorArmed, checkSession. simpl.
  rewrite (eightHoursFrom_fixedZone offset t0 Hrange). simpl.
  change (8 * JSDate.msPerHour) with 28800000.
  destruct (Z.ltb_spec (t0 + 28800000) t1) as [Hlate|Hearly]; split; intros H;
    try lia; reflexivity.
Qed.

Lemma session_monitor_after_LOGIN_witness :
  dispatchAll utc 28801000
    (inventoryReducer utc 1000 (initialState 0) (LOGIN exampleUser))
    (sessionMonitorTick 28801000 (inventoryReducer utc 1000 (initialState 0) (LOGIN exampleUser)))
  = inventoryReducer utc 1000 (initialState 0) (LOGIN exampleUser).
Proof.
  destruct (session_monitor_after_LOGIN 0 1000 28801000 (initialState 0) exampleUser)
    as [Hkept _].
  - vm_compute. discriminate.
  - apply Hkept. vm_compute. discriminate.
Defined.

(** ** Views and roles *)

(** X11: a guest is shown the dashboard, the search view or the
    access-denied notice and nothing else, whatever [currentView] holds,
    and [handleViewChange] sets [currentView] to one of these three views. *)
Theorem guest_sees_only_open_screens s view currentView :
  userRole s = Some User.guest ->
  In (renderCurrentView (userRole s) currentView)
     [DashboardScreen; SearchFilterScreen; AccessDeniedScreen] /\
  In (handleViewChange (userRole s) view) ["dashboard"; "search"; "access-denied"].
Proof.
  intros Hguest. rewrite Hguest. split.
  - unfold renderCurrentView. simpl.
    repeat match goal with
           | |- context [String.eqb currentView ?v] => destruct (String.eqb currentView v)
           end; simpl; tauto.
  - unfold handleViewChange, includes. simpl.
    destruct (String.eqb_spec view "dashboard") as [E|_]; [subst; simpl; tauto |].
    destruct (String.eqb_spec view "search") as [E|_]; [subst; simpl; tauto |].
    simpl. tauto.
Qed.

Lemma guest_sees_only_open_screens_witness :
  In (renderCurrentView (userRole guestSession) "settings")
     [DashboardScreen; SearchFilterScreen; AccessDeniedScreen].
Proof.
  destruct (guest_sees_only_open_screens guestSession "settings" "settings") as [Hscreen _].
  - reflexivity.
  - exact Hscreen.
Defined.

(** X12: the sidebar and the view switch agree: every entry the sidebar
    shows for a role is a view that [handleViewChange] accepts for that
    role and that [renderCurrentView] does not answer with the
    access-denied notice; the entries shown to a guest are the dashboard
    and the search view. *)
Theorem menu_items_are_open_for_their_role role item :
  In item (menuItems role) ->
  handleViewChange role (menuId item) = menuId item /\
  renderCurrentView role (menuId item) <> AccessDeniedScreen /\
  (isGuest role = true -> In (menuId item) ["dashboard"; "search"]).
Proof.
  intros Hin.
  destruct role as [[| |]|]; vm_compute in Hin;
    repeat (destruct Hin as [Hin|Hin]; [subst item; vm_compute;
                                        repeat split; try discriminate; tauto |]);
    contradiction.
Qed.

Lemma menu_items_are_open_for_their_role_witness :
  renderCurrentView (Some User.team) (menuId settingsMenuItem) <> AccessDeniedScreen.
Proof.
  destruct (menu_items_are_open_for_their_role (Some User.team) settingsMenuItem)
    as [_ [Hopen _]].
  - vm_compute. tauto.
  - exact Hopen.
Defined.

(** ** The admin passcode *)




(** ** Orphaned items in the search view *)

Lemma find_removeById (x y : string) (l : list Category.t) :
  find (fun c => String.eqb (Category.id c) y) (removeById Category.id x l)
  = if String.eqb y x then None else find (fun c => String.eqb (Category.id c) y) l.
Proof.
  unfold removeById. induction l as [|c l IH]; simpl.
  - destruct (String.eqb y x); reflexivity.
  - destruct (String.eqb_spec (Category.id c) x) as [Ex|Ex]; simpl.
    + rewrite IH. destruct (String.eqb_spec y x) as [Eyx|Eyx]; [reflexivity |].
      destruct (String.eqb_spec (Category.id c) y) as [Ey|Ey]; [congruence | reflexivity].
    + destruct (String.eqb_spec (Category.id c) y) as [Ey|Ey].
      * destruct (String.eqb_spec y x) as [Eyx|Eyx]; [congruence | reflexivity].
      * exact IH.
Qed.

(** X14: once [DELETE_CATEGORY] has removed a category, the search view
    names it [Unknown], which is what the items still referring to it are
    shown with; the names of the other categories are as before. *)
Theorem deleted_category_is_named_Unknown tz now s x y :
  let s' := inventoryReducer tz now s (DELETE_CATEGORY x) in
  getCategoryName s' x = "Unknown" /\
  (y <> x -> getCategoryName s' y = getCategoryName s y).
Proof.
  cbv zeta. rewrite reducer_DELETE_CATEGORY. unfold getCategoryName. simpl.
  rewrite !find_removeById. rewrite String.eqb_refl. split; [reflexivity |].
  intros Hne. destruct (String.eqb_spec y x); [contradiction | reflexivity].
Qed.

(** ** The daily report *)



(** ** The dashboard *)

(** X16: a record that was just logged is the first of the dashboard's
    recent activities, followed by the four newest of before; the dashboard
    never shows more than five. *)
Theorem newest_activity_is_shown_first tz now s r :
  let s' := inventoryReducer tz now s (ADD_ACTIVITY r) in
  recentActivities s' = r :: firstn 4 (activityLog s) /\
  (List.length (recentActivities s') <= 5)%nat.
Proof.
  cbv zeta. split; [reflexivity |]. unfold recentActivities. apply firstn_le_length.
Qed.

(** ** Deleting a category from the category page *)

Lemma dispatchAll_updates tz now (updates : list InventoryItem.t) :
  forall s,
    dispatchAll tz now s (map UPDATE_ITEM updates)
    = withItems s (applyUpdates updates (items s)).
Proof.
  unfold dispatchAll, applyUpdates.
  induction updates as [|u updates IH]; simpl; intros s.
  - destruct s. reflexivity.
  - rewrite IH. reflexivity.
Qed.

Lemma applyUpdates_ids (updates : list InventoryItem.t) :
  forall l, itemIds (applyUpdates updates l) = itemIds l.
Proof.
  unfold applyUpdates, itemIds. induction updates as [|u updates IH]; simpl; intros l.
  - reflexivity.
  - rewrite IH. apply replaceById_keys.
Qed.

(** Once every update of a run has been applied, no item is left in a
    category that the payloads do not use and whose items each had an
    update. *)
Lemma applyUpdates_clears_category (k : string) (updates : list InventoryItem.t) :
  forall l,
    (forall u, In u updates -> InventoryItem.categoryId u <> k) ->
    (forall x, In x l -> InventoryItem.categoryId x = k ->
               exists u, In u updates /\ InventoryItem.id u = InventoryItem.id x) ->
    forall x, In x (applyUpdates updates l) -> InventoryItem.categoryId x <> k.
Proof.
  unfold applyUpdates. induction updates as [|u updates IH]; simpl; intros l Hpay Hcov x Hx.
  - intros Hk. destruct (Hcov x Hx Hk) as [u' [[] _]].
  - apply (IH (replaceById InventoryItem.id u l)); [| | exact Hx].
    + intros u' Hu'. apply Hpay. right. exact Hu'.
    + intros y Hy Hk. apply replaceById_In in Hy. destruct Hy as [[Hyu _]|[Hyl Hne]].
      * subst y. exfalso. apply (Hpay u); [left; reflexivity | exact Hk].
      * destruct (Hcov y Hyl Hk) as [u' [[Hu'|Hu'] Hid]].
        -- subst u'. congruence.
        -- exists u'. split; assumption.
Qed.

Lemma filter_nothing {A : Type} (p : A -> bool) (l : list A) :
  (forall x, In x l -> p x = false) -> filter p l = [].
Proof.
  induction l as [|a l IH]; simpl; intros H; [reflexivity |].
  rewrite (H a (or_introl eq_refl)). apply IH. intros x Hx. apply H. right. exact Hx.
Qed.

(** The dispatches of [handleDelete] when it goes ahead. *)
Lemma handleDelete_goes_ahead idClock stampClock confirmed s c :
  Category.id c <> "default" ->
  confirmed = true \/ getCategoryItemCount s (Category.id c) = 0%nat ->
  handleDelete idClock stampClock confirmed s c
  = map UPDATE_ITEM (map moveToDefault (itemsInCategory s (Category.id c)))
    ++ [DELETE_CATEGORY (Category.id c);
        ADD_ACTIVITY (deletionRecord idClock stampClock s c)].
Proof.
  intros Hnd Hgo. unfold handleDelete, getCategoryItemCount, itemsInCategory in *.
  destruct (String.eqb_spec (Category.id c) "default") as [E|_]; [contradiction |].
  rewrite map_map.
  destruct (filter _ (items s)) as [|i moved'].
  - reflexivity.
  - destruct Hgo as [Hyes|Hnone]; [| discriminate Hnone].
    subst confirmed. reflexivity.
Qed.

Lemma hasCategoryb_removeById (x : string) (l : list Category.t) :
  hasCategoryb x (removeById Category.id x l) = false.
Proof.
  unfold hasCategoryb. apply not_true_is_false. intros Hex.
  apply existsb_exists in Hex. destruct Hex as [c [Hin Heq]].
  apply removeById_In in Hin. apply String.eqb_eq in Heq. tauto.
Qed.

Lemma moved_items_cover_category (s : InventoryState) (k : string) :
  k <> "default" ->
  (forall u, In u (map moveToDefault (itemsInCategory s k)) ->
             InventoryItem.categoryId u <> k) /\
  (forall x, In x (items s) -> InventoryItem.categoryId x = k ->
             exists u, In u (map moveToDefault (itemsInCategory s k))
                       /\ InventoryItem.id u = InventoryItem.id x).
Proof.
  intros Hnd. unfold itemsInCategory. split.
  - intros u Hu. apply in_map_iff in Hu. destruct Hu as [i [Hi _]]. subst u. simpl.
    congruence.
  - intros x Hx Hk. exists (moveToDefault x). split; [| reflexivity].
    apply in_map. apply filter_In. split; [exact Hx | apply String.eqb_eq; exact Hk].
Qed.

(** X17: when [handleDelete] goes ahead on a category other than
    [default] (the user confirmed, or the category held no item), the
    state after its dispatches has no item left in that category and no
    such category; the items keep their ids, order and number, and the
    deletion is the newest entry of the log. *)
Theorem handleDelete_moves_every_item tz now idClock stampClock confirmed s c :
  Category.id c <> "default" ->
  confirmed = true \/ getCategoryItemCount s (Category.id c) = 0%nat ->
  let s' := dispatchAll tz now s (handleDelete idClock stampClock confirmed s c) in
  getCategoryItemCount s' (Category.id c) = 0%nat /\
  hasCategoryb (Category.id c) (categories s') = false /\
  itemIds (items s') = itemIds (items s) /\
  List.length (items s') = List.length (items s) /\
  option_map ActivityLog.type (hd_error (activityLog s')) = Some ActivityLog.delete.
Proof.
  intros Hnd Hgo. cbv zeta.
  rewrite (handleDelete_goes_ahead idClock stampClock confirmed s c Hnd Hgo).
  rewrite dispatchAll_app, dispatchAll_updates.
  unfold dispatchAll, getCategoryItemCount. simpl.
  destruct (moved_items_cover_category s (Category.id c) Hnd) as [Hpay Hcov].
  assert (Hids : itemIds (applyUpdates (map moveToDefault (itemsInCategory s (Category.id c)))
                            (items s)) = itemIds (items s)) by apply applyUpdates_ids.
  split; [| split; [| split; [| split]]].
  - rewrite filter_nothing; [reflexivity |]. intros x Hx.
    apply String.eqb_neq.
    exact (applyUpdates_clears_category (Category.id c) _ (items s) Hpay Hcov x Hx).
  - apply hasCategoryb_removeById.
  - exact Hids.
  - apply (f_equal (@List.length string)) in Hids. unfold itemIds in Hids.
    rewrite !length_map in Hids. exact Hids.
  - reflexivity.
Qed.

Lemma handleDelete_moves_every_item_witness :
  getCategoryItemCount stockedState "tools" = 2%nat /\
  getCategoryItemCount
    (dispatchAll utc 2000 stockedState (handleDelete 2000 2000 true stockedState toolsCategory))
    "tools" = 0%nat.
Proof.
  split; [reflexivity |].
  apply (handleDelete_moves_every_item utc 2000 2000 2000 true stockedState toolsCategory).
  - discriminate.
  - left. reflexivity.
Defined.

Lemma same_id_same_item (l : list InventoryItem.t) (a b : InventoryItem.t) :
  NoDup (itemIds l) -> In a l -> In b l ->
  InventoryItem.id a = InventoryItem.id b -> a = b.
Proof.
  unfold itemIds. induction l as [|x l IH]; simpl; intros Hnd Ha Hb Hid; [contradiction |].
  inversion Hnd as [|k ks Hfresh Hrest]; subst.
  destruct Ha as [Ha|Ha], Hb as [Hb|Hb].
  - congruence.
  - subst a. exfalso. apply Hfresh. rewrite Hid. apply in_map. exact Hb.
  - subst b. exfalso. apply Hfresh. rewrite <- Hid. apply in_map. exact Ha.
  - apply IH; assumption.
Qed.

Lemma reassignedAmong_id processed k i :
  InventoryItem.id (reassignedAmong processed k i) = InventoryItem.id i.
Proof.
  unfold reassignedAmong.
  destruct (String.eqb (InventoryItem.categoryId i) k && existsb _ processed); reflexivity.
Qed.

(** One update of the run, on a list with distinct ids: the item with the
    payload's id is reassigned, the others are as they were. *)
Lemma reassign_one_more (l processed : list InventoryItem.t) (k : string) (x : InventoryItem.t) :
  NoDup (itemIds l) -> In x l -> InventoryItem.categoryId x = k ->
  replaceById InventoryItem.id (moveToDefault x) (map (reassignedAmong processed k) l)
  = map (reassignedAmong (processed ++ [x]) k) l.
Proof.
  intros Hnd Hx Hk. unfold replaceById. rewrite map_map. apply map_ext_in.
  intros i Hi. rewrite reassignedAmong_id. simpl.
  unfold reassignedAmong. rewrite existsb_app. simpl. rewrite orb_false_r.
  destruct (String.eqb_spec (InventoryItem.id i) (InventoryItem.id x)) as [E|E].
  - assert (i = x) by (apply (same_id_same_item l); assumption). subst i.
    rewrite Hk, !String.eqb_refl, orb_true_r. reflexivity.
  - rewrite (String.eqb_sym (InventoryItem.id x)).
    destruct (String.eqb_spec (InventoryItem.id i) (InventoryItem.id x)); [contradiction |].
    rewrite orb_false_r. reflexivity.
Qed.

Lemma reassign_all (l : list InventoryItem.t) (k : string) (rest : list InventoryItem.t) :
  NoDup (itemIds l) ->
  forall processed,
    (forall x, In x rest -> In x l /\ InventoryItem.categoryId x = k) ->
    applyUpdates (map moveToDefault rest) (map (reassignedAmong processed k) l)
    = map (reassignedAmong (processed ++ rest) k) l.
Proof.
  intros Hnd. unfold applyUpdates.
  induction rest as [|x rest IH]; simpl; intros processed Hrest.
  - rewrite app_nil_r. reflexivity.
  - destruct (Hrest x (or_introl eq_refl)) as [Hx Hk].
    rewrite (reassign_one_more l processed k x Hnd Hx Hk).
    rewrite IH by (intros y Hy; apply Hrest; right; exact Hy).
    rewrite <- app_assoc. reflexivity.
Qed.

Lemma applyUpdates_reassigns (l : list InventoryItem.t) (k : string) :
  NoDup (itemIds l) ->
  applyUpdates
    (map moveToDefault (filter (fun i => String.eqb (InventoryItem.categoryId i) k) l)) l
  = reassigned k l.
Proof.
  intros Hnd.
  set (moved := filter (fun i => String.eqb (InventoryItem.categoryId i) k) l).
  assert (Hstart : map (reassignedAmong [] k) l = l).
  { rewrite <- (map_id l) at 2. apply map_ext. intros i. unfold reassignedAmong. simpl.
    rewrite andb_false_r. reflexivity. }
  rewrite <- Hstart at 1. rewrite (reassign_all l k moved Hnd []).
  - simpl. unfold reassigned. apply map_ext_in. intros i Hi. unfold reassignedAmong.
    destruct (String.eqb (InventoryItem.categoryId i) k) eqn:Hk; [| reflexivity].
    simpl. replace (existsb _ moved) with true; [reflexivity |].
    symmetry. apply existsb_exists. exists i. split.
    + unfold moved. apply filter_In. split; assumption.
    + apply String.eqb_refl.
  - intros x Hx. unfold moved in Hx. apply filter_In in Hx. destruct Hx as [Hx Hk].
    split; [exact Hx | apply String.eqb_eq; exact Hk].
Qed.

(** X18: on a state whose items have distinct ids, the dispatches of a
    [handleDelete] that goes ahead do to the items exactly what deleting
    a category is meant to: each item of the category is the same item
    with [categoryId] set to [default], in place, and every other item is
    untouched. Settings and session are those of before. *)
Theorem handleDelete_reassigns_exactly tz now idClock stampClock confirmed s c :
  uniqueItemIds s ->
  Category.id c <> "default" ->
  confirmed = true \/ getCategoryItemCount s (Category.id c) = 0%nat ->
  let s' := dispatchAll tz now s (handleDelete idClock stampClock confirmed s c) in
  items s' = reassigned (Category.id c) (items s) /\
  categories s' = removeById Category.id (Category.id c) (categories s) /\
  activityLog s' = deletionRecord idClock stampClock s c :: activityLog s /\
  settings s' = settings s /\ auth s' = auth s.
Proof.
  intros Hnd Hdef Hgo. cbv zeta.
  rewrite (handleDelete_goes_ahead idClock stampClock confirmed s c Hdef Hgo).
  rewrite dispatchAll_app, dispatchAll_updates.
  unfold dispatchAll, itemsInCategory. simpl.
  rewrite (applyUpdates_reassigns (items s) (Category.id c) Hnd).
  repeat split.
Qed.

Lemma handleDelete_reassigns_exactly_witness :
  map InventoryItem.categoryId
    (items (dispatchAll utc 2000 stockedState
              (handleDelete 2000 2000 true stockedState toolsCategory)))
  = ["default"; "default"; "default"].
Proof.
  destruct (handleDelete_reassigns_exactly utc 2000 2000 2000 true stockedState toolsCategory)
    as [Hitems _].
  - unfold uniqueItemIds. simpl.
    repeat (constructor; [simpl; intros H; repeat (destruct H as [H|H]; [discriminate H |]);
                          exact H |]).
    constructor.
  - discriminate.
  - left. reflexivity.
  - rewrite Hitems. reflexivity.
Defined.

(** ** The category form *)

Section CategoryFormProperties.
Variable trim : string -> string.
Variable toLowerCase : string -> string.

Lemma validateForm_accepts (s : InventoryState) (editing : option Category.t)
    (form : CategoryForm) :
  validateForm trim toLowerCase s editing form = true ->
  isDuplicateName toLowerCase s editing form = false /\
  trim (formName form) <> "" /\
  2 <= Z.of_nat (String.length (formName form)) /\
  trim (formDescription form) <> "".
Proof.
  unfold validateForm, validationErrors.
  destruct (isDuplicateName toLowerCase s editing form); [discriminate |].
  destruct (String.eqb_spec (trim (formName form)) "") as [En|En]; [discriminate |].
  destruct (Z.ltb_spec (Z.of_nat (String.length (formName form))) 2) as [Hl|Hl];
    [discriminate |].
  destruct (String.eqb_spec (trim (formDescription form)) "") as [Ed|Ed]; [discriminate |].
  intros _. repeat split; assumption.
Qed.

(** No category other than the edited one has the form's name. *)
Lemma isDuplicateName_false (s : InventoryState) (editing : option Category.t)
    (form : CategoryForm) :
  isDuplicateName toLowerCase s editing form = false ->
  forall cat, In cat (categories s) ->
              toLowerCase (Category.name cat) = toLowerCase (formName form) ->
              exists ec, editing = Some ec /\ Category.id cat = Category.id ec.
Proof.
  unfold isDuplicateName. intros Hnone cat Hin Hname.
  assert (Hcat : String.eqb (toLowerCase (Category.name cat)) (toLowerCase (formName form))
                 && isOtherThan editing cat = false).
  { destruct (_ && _) eqn:E; [| reflexivity].
    rewrite <- Hnone. symmetry. apply existsb_exists. exists cat. split; assumption. }
  rewrite Hname, String.eqb_refl in Hcat. simpl in Hcat.
  unfold isOtherThan in Hcat. destruct editing as [ec|]; [| discriminate].
  exists ec. split; [reflexivity |].
  apply negb_false_iff in Hcat. apply String.eqb_eq. exact Hcat.
Qed.

(** Renaming the category with a given id keeps the names distinct when
    the ids are distinct and the new name is that of no other category. *)
Lemma rename_keeps_names_unique (updated : Category.t) (l : list Category.t) :
  NoDup (map (fun c => toLowerCase (Category.name c)) l) ->
  NoDup (map Category.id l) ->
  (forall cat, In cat l ->
               toLowerCase (Category.name cat) = toLowerCase (Category.name updated) ->
               Category.id cat = Category.id updated) ->
  NoDup (map (fun c => toLowerCase (Category.name c)) (replaceById Category.id updated l)).
Proof.
  unfold replaceById. rewrite map_map.
  induction l as [|c l IH]; simpl; intros Hnames Hids Hother; [constructor |].
  inversion Hnames as [|n ns Hn Hnames']; subst.
  inversion Hids as [|i ids Hi Hids']; subst.
  constructor.
  - intros Hin. apply in_map_iff in Hin. destruct Hin as [d [Heq Hd]].
    assert (Hcd : Category.id d <> Category.id c).
    { intros E. apply Hi. rewrite <- E. apply in_map. exact Hd. }
    destruct (String.eqb_spec (Category.id c) (Category.id updated)) as [Ec|Ec];
      destruct (String.eqb_spec (Category.id d) (Category.id updated)) as [Ed|Ed].
    + congruence.
    + apply Ed. apply Hother; [right; exact Hd | exact Heq].
    + apply Ec. apply Hother; [left; reflexivity | symmetry; exact Heq].
    + apply Hn. rewrite <- Heq.
      apply (in_map (fun x => toLowerCase (Category.name x))). exact Hd.
  - apply IH; [exact Hnames' | exact Hids' |].
    intros cat Hcat. apply Hother. right. exact Hcat.
Qed.

(** X19: the category form keeps category names distinct when case is
    ignored: on a state whose categories have distinct ids and distinct
    lower-cased names, the dispatches of [handleSubmit], for a new
    category as for an edited one, lead to a state whose lower-cased names
    are distinct again. *)
Theorem handleSubmit_keeps_names_unique tz now clock s editing form :
  uniqueCategoryNames toLowerCase (categories s) ->
  NoDup (map Category.id (categories s)) ->
  uniqueCategoryNames toLowerCase
    (categories (dispatchAll tz now s (handleSubmit trim toLowerCase clock s editing form))).
Proof.
  unfold uniqueCategoryNames, handleSubmit. intros Hnames Hids.
  destruct (validateForm trim toLowerCase s editing form) eqn:Hv; [| exact Hnames].
  destruct (validateForm_accepts s editing form Hv) as [Hdup _].
  pose proof (isDuplicateName_false s editing form Hdup) as Hother.
  destruct editing as [ec|]; unfold dispatchAll.
  - set (updated := {| Category.id := Category.id ec;
                       Category.name := formName form;
                       Category.description := formDescription form;
                       Category.color := formColor form;
                       Category.createdAt := Category.createdAt ec |}).
    change (NoDup (map (fun c => toLowerCase (Category.name c))
                     (replaceById Category.id updated (categories s)))).
    apply rename_keeps_names_unique; [exact Hnames | exact Hids |].
    simpl. intros cat Hcat Hname.
    destruct (Hother cat Hcat Hname) as [ec' [Hec Hid]]. congruence.
  - simpl. rewrite map_app. simpl. apply NoDup_app.
    + exact Hnames.
    + constructor; [simpl; tauto | constructor].
    + intros n Hn [E|[]]. subst n. apply in_map_iff in Hn.
      destruct Hn as [cat [Hname Hcat]].
      destruct (Hother cat Hcat Hname) as [ec' [Hec _]]. discriminate Hec.
Qed.

End CategoryFormProperties.

Lemma handleSubmit_keeps_names_unique_witness :
  handleSubmit asciiTrim asciiLower 2000 (initialState 0) None generalForm = [] /\
  uniqueCategoryNames asciiLower
    (categories
       (dispatchAll utc 2000 (initialState 0)
          (handleSubmit asciiTrim asciiLower 2000 (initialState 0) None toolsForm))).
Proof.
  split; [reflexivity |].
  apply (handleSubmit_keeps_names_unique asciiTrim asciiLower utc 2000 2000
           (initialState 0) None toolsForm).
  - unfold uniqueCategoryNames. simpl. constructor; [simpl; tauto | constructor].
  - simpl. constructor; [simpl; tauto | constructor].
Defined.


(** ** Category ids on the category page *)

Lemma reducer_keeps_category_ids tz now s a :
  keepsCategoryIds a = true ->
  NoDup (map Category.id (categories s)) ->
  NoDup (map Category.id (categories (inventoryReducer tz now s a))).
Proof.
  intros Hk Hnd. destruct (touchesCategories a) eqn:Ht.
  - destruct a; try discriminate.
    + rewrite reducer_UPDATE_CATEGORY. simpl. rewrite replaceById_keys. exact Hnd.
    + rewrite reducer_DELETE_CATEGORY. simpl. apply removeById_NoDup. exact Hnd.
  - rewrite reducer_categories_frame by exact Ht. exact Hnd.
Qed.

Lemma dispatchAll_keeps_category_ids tz now (actions : list InventoryAction) :
  forall s,
    forallb keepsCategoryIds actions = true ->
    NoDup (map Category.id (categories s)) ->
    NoDup (map Category.id (categories (dispatchAll tz now s actions))).
Proof.
  unfold dispatchAll. induction actions as [|a actions IH]; simpl; intros s Hall Hnd.
  - exact Hnd.
  - apply andb_prop in Hall. destruct Hall as [Ha Hrest].
    apply IH; [exact Hrest | apply reducer_keeps_category_ids; assumption].
Qed.

Lemma handleDelete_keepsCategoryIds idClock stampClock confirmed s c :
  forallb keepsCategoryIds (handleDelete idClock stampClock confirmed s c) = true.
Proof.
  unfold handleDelete.
  destruct (String.eqb (Category.id c) "default"); [reflexivity |].
  set (moved := filter _ (items s)).
  destruct ((0 <? Z.of_nat (List.length moved)) && negb confirmed); [reflexivity |].
  rewrite forallb_app. apply andb_true_intro. split; [| reflexivity].
  destruct (0 <? Z.of_nat (List.length moved)); [| reflexivity].
  apply forallb_forall. intros a Ha. apply in_map_iff in Ha.
  destruct Ha as [i [Hi _]]. subst a. reflexivity.
Qed.

(** X21: the handlers of the category page keep category ids distinct:
    [handleDelete] always, [handleSubmit] when it edits, and when it adds
    provided the clock string it uses as the new id is not already the id
    of a category (two additions within one millisecond would share it). *)
Theorem category_page_keeps_ids_distinct trim toLowerCase tz now clock confirmed
    s editing form c :
  NoDup (map Category.id (categories s)) ->
  (editing = None -> ~ In (timeToString clock) (map Category.id (categories s))) ->
  NoDup (map Category.id
           (categories
              (dispatchAll tz now s (handleSubmit trim toLowerCase clock s editing form)))) /\
  NoDup (map Category.id
           (categories (dispatchAll tz now s (handleDelete clock clock confirmed s c)))).
Proof.
  intros Hnd Hfresh. split.
  - unfold handleSubmit.
    destruct (validateForm trim toLowerCase s editing form); [| exact Hnd].
    destruct editing as [ec|].
    + apply dispatchAll_keeps_category_ids; [reflexivity | exact Hnd].
    + unfold dispatchAll. simpl.
      apply (append_NoDup Category.id); [exact Hnd | apply Hfresh; reflexivity].
  - apply dispatchAll_keeps_category_ids;
      [apply handleDelete_keepsCategoryIds | exact Hnd].
Qed.

Lemma category_page_keeps_ids_distinct_witness :
  NoDup (map Category.id
           (categories
              (dispatchAll utc 2000 (initialState 0)
                 (handleSubmit asciiTrim asciiLower 2000 (initialState 0) None toolsForm)))).
Proof.
  destruct (category_page_keeps_ids_distinct asciiTrim asciiLower utc 2000 2000 true
              (initialState 0) None toolsForm toolsCategory) as [Hsubmit _].
  - simpl. constructor; [simpl; tauto | constructor].
  - intros _. vm_compute. intros [E|[]]. discriminate E.
  - exact Hsubmit.
Defined.

(** ** The stand-alone inventory context *)

Section SimpleInventoryProperties.
Import SimpleInventory.

Lemma getItem_app (k : string) (l1 l2 : list InventoryItem) :
  getItem k (l1 ++ l2) = match getItem k l1 with
                         | Some item => Some item
                         | None => getItem k l2
                         end.
Proof.
  unfold getItem. induction l1 as [|x l1 IH]; simpl; [reflexivity |].
  destruct (String.eqb (id x) k); [reflexivity | exact IH].
Qed.

Lemma getItem_absent (k : string) (l : list InventoryItem) :
  ~ In k (map id l) -> getItem k l = None.
Proof.
  unfold getItem. induction l as [|x l IH]; simpl; intros Habs; [reflexivity |].
  destruct (String.eqb_spec (id x) k) as [E|E]; [exfalso; apply Habs; left; exact E |].
  apply IH. intros Hin. apply Habs. right. exact Hin.
Qed.

(** X22: after [addItem], looking up the new id finds the new item,
    provided the id was not in use, and every other lookup answers as
    before. *)
Theorem getItem_after_addItem uuid clock item inventory k :
  ~ In uuid (map id inventory) ->
  getItem uuid (addItem uuid clock item inventory) = Some (stamped uuid clock item) /\
  (k <> uuid -> getItem k (addItem uuid clock item inventory) = getItem k inventory).
Proof.
  intros Hfresh. unfold addItem. rewrite !getItem_app. split.
  - rewrite (getItem_absent uuid inventory Hfresh). unfold getItem. simpl.
    rewrite String.eqb_refl. reflexivity.
  - intros Hk. destruct (getItem k inventory); [reflexivity |].
    unfold getItem. simpl.
    destruct (String.eqb_spec uuid k); [congruence | reflexivity].
Qed.

(** X23: after [deleteItem], looking up the deleted id finds nothing,
    even if several items had it, and every other lookup answers as
    before. *)
Theorem getItem_after_deleteItem inventory x k :
  getItem x (deleteItem x inventory) = None /\
  (k <> x -> getItem k (deleteItem x inventory) = getItem k inventory).
Proof.
  unfold getItem, deleteItem. induction inventory as [|i l [IHx IHk]]; simpl.
  - split; reflexivity.
  - destruct (String.eqb_spec (id i) x) as [Ex|Ex]; simpl.
    + split; [exact IHx |]. intros Hk.
      destruct (String.eqb_spec (id i) k); [congruence | apply IHk; exact Hk].
    + destruct (String.eqb_spec (id i) x); [contradiction |]. split; [exact IHx |].
      intros Hk. destruct (String.eqb (id i) k); [reflexivity | apply IHk; exact Hk].
Qed.
End SimpleInventoryProperties.

Lemma getItem_after_addItem_witness :
  SimpleInventory.getItem "u-1"
    (SimpleInventory.addItem "u-1" 1000 SimpleInventory.sampleNewItem [])
  = Some (SimpleInventory.stamped "u-1" 1000 SimpleInventory.sampleNewItem).
Proof.
  destruct (getItem_after_addItem "u-1" 1000 SimpleInventory.sampleNewItem [] "u-2")
    as [Hfound _].
  - simpl. tauto.
  - exact Hfound.
Defined.
